(** * SpeechCommands feature extractor (ml5): lifecycle of the transfer model

    Shallow embedding of [src/FeatureExtractor/SpeechCommands.js].  The class
    sequences calls against the tfjs speech-commands recogniser; that
    recogniser is an external collaborator and is kept abstract (a record of
    operations over an abstract recogniser state).  Every method of the class
    is a computation in a small state / exception / trace monad over the
    fields of the instance. *)

From Stdlib Require Import List String Ascii ZArith QArith Qabs Bool Lia Sorted.
From Stdlib Require Import DecimalString FinFun.
Import ListNotations.

Local Open Scope string_scope.
Local Open Scope list_scope.

(** ** JavaScript values that reach the class *)

(** Scalar property values of an options object. *)
Inductive Scalar : Type :=
| SNull
| SBool (b : bool)
| SNum (n : Z)
| SStr (s : string).

(** Arguments of the public methods.  Numbers are integers here (they are
    class counts and labels); a function is known by an identifier; an object
    is the list of its own enumerable properties, in insertion order. *)
Inductive Value : Type :=
| VUndefined
| VNull
| VBool (b : bool)
| VNum (n : Z)
| VStr (s : string)
| VFun (id : nat)
| VObj (props : list (string * Scalar)).

(** [typeof v] *)
Definition typeof (v : Value) : string :=
  match v with
  | VUndefined => "undefined"
  | VNull => "object"
  | VBool _ => "boolean"
  | VNum _ => "number"
  | VStr _ => "string"
  | VFun _ => "function"
  | VObj _ => "object"
  end.

(** Truthiness, as used by [if (callback)]. *)
Definition truthy (v : Value) : bool :=
  match v with
  | VUndefined | VNull => false
  | VBool b => b
  | VNum n => negb (n =? 0)%Z
  | VStr s => negb (s =? "")
  | VFun _ | VObj _ => true
  end.

(** Exceptions: [new Error(msg)], the engine's [TypeError], and whatever the
    collaborator rejects with (it has a [message] too). *)
Inductive Exn : Type :=
| Error (msg : string)
| TypeError (msg : string).

Definition message (e : Exn) : string :=
  match e with Error m | TypeError m => m end.

(** Result of a fallible collaborator call. *)
Inductive Res (A : Type) : Type :=
| Ok (a : A)
| Fail (e : Exn).
Arguments Ok {A} a.
Arguments Fail {A} e.

(** ** Options object: [Object.assign] *)

Definition Options := list (string * Scalar).

Fixpoint lookup (k : string) (o : Options) : option Scalar :=
  match o with
  | [] => None
  | (k', v) :: o' => if k =? k' then Some v else lookup k o'
  end.

(** [o[k] = v]: an existing key keeps its position, a new key is appended. *)
Fixpoint set_prop (k : string) (v : Scalar) (o : Options) : Options :=
  match o with
  | [] => [(k, v)]
  | (k', v') :: o' => if k =? k' then (k', v) :: o' else (k', v') :: set_prop k v o'
  end.

(** [Object.assign(target, source)]: the source's own properties are copied in
    order; [null] and [undefined] sources are skipped, and the primitive
    sources that can reach this call have no own enumerable properties. *)
Definition own_props (source : Value) : list (string * Scalar) :=
  match source with
  | VObj props => props
  | _ => []
  end.

Definition Object_assign (target : Options) (source : Value) : Options :=
  fold_left (fun o kv => set_prop (fst kv) (snd kv) o) (own_props source) target.

(** ** What a method call leaves behind: the trace

    Each collaborator call, each callback invocation and each [await] of the
    source is recorded in order. *)

(** One entry of a classification result: [{label, confidence}]. *)
Record ClassResult : Type := mkClass { label : Value; confidence : Q }.

(** Argument of a callback invocation. *)
Inductive Arg : Type :=
| AVal (v : Value)
| AThis
| AExn (e : Exn)
| AClasses (cs : list ClassResult).

Inductive Event : Type :=
| ECreate (modelURL metadataURL : option string)
| EEnsureModelLoaded
| ECreateTransfer (name : string)
| EIsListening (answer : bool)
| EStopListening
| ECollectExample (lbl : Value)
| ECountExamples
| EWordLabels
| ETrain (epochs : nat)
| EListen (topk : Z) (cb : Value) (opts : Options)
| ESave
| EGetMetadata
| ESaveBlob (name mime : string)
| EConsoleLog
| ECall (f : Value) (args : list Arg)
| EAwait.

(** ** The recogniser collaborator (tfjs speech-commands)

    The operations the class calls on [speechCommandsModel] and on [model].
    Their behaviour belongs to the library; the class only sequences them.
    Calls whose promise the source awaits or catches may fail. *)

(** [logs] handed to [onEpochEnd]. *)
Record Logs : Type := mkLogs { loss : Q; acc : Q }.

(** What [model.train] does with the two callbacks of its config, in order. *)
Inductive TrainSignal : Type :=
| EpochEnd (epoch : nat) (logs : Logs)
| TrainEnd.

(** A result handed to the [listen] callback: [result.scores] may be absent;
    [shown] is the text the template literal makes of the result. *)
Record ListenResult : Type := mkResult { scores : option (list Q); shown : string }.

Module Recognizer.

Class Ops (Rec : Type) : Type := {
  (** [tfjsSpeechCommands.create('BROWSER_FFT', undefined, modelURL, metadataURL)] *)
  create : option string -> option string -> Rec;
  ensureModelLoaded : Rec -> Res unit * Rec;
  (** [base.createTransfer(name)]: the new transfer recogniser, and the base *)
  createTransfer : Rec -> string -> Res Rec * Rec;
  isListening : Rec -> bool;
  stopListening : Rec -> Rec;
  collectExample : Rec -> Value -> Res unit * Rec;
  (** [None] is a falsy answer; otherwise the object's keys with their counts *)
  countExamples : Rec -> option (list (string * nat));
  wordLabels : Rec -> list Value;
  (** [train({epochs, callback})]: the callbacks it fires, and how it settles *)
  train : Rec -> nat -> list TrainSignal * Res unit * Rec;
  listen : Rec -> Options -> Res unit * Rec;
  (** [save(handler)]: the serialised artifacts handed to the handler *)
  save : Rec -> Res string * Rec;
  (** [JSON.stringify(getMetadata())] *)
  getMetadata : Rec -> string
}.

(** The part of the library's contract the lifecycle relies on: stopping ends
    the session, and the vocabulary is the set of collected words. *)
Class Laws {Rec : Type} (R : Ops Rec) : Prop := {
  stop_not_listening : forall t, isListening (stopListening t) = false;
  labels_stop : forall t, wordLabels (stopListening t) = wordLabels t;
  labels_fresh : forall b b' t name,
      createTransfer b name = (Ok t, b') -> wordLabels t = [];
  labels_collect : forall t t' l,
      collectExample t l = (Ok tt, t') ->
      forall x, In x (wordLabels t') <-> x = l \/ In x (wordLabels t);
  labels_nodup : forall t, NoDup (wordLabels t)
}.

(** A training run that honours its config: one [onEpochEnd] per epoch, in
    order, then [onTrainEnd]. *)
Definition fit_signals (logs : list Logs) : list TrainSignal :=
  map (fun el => EpochEnd (fst el) (snd el)) (combine (seq 0 (List.length logs)) logs)
  ++ [TrainEnd].

(** The recogniser runs the number of epochs it is asked for and resolves. *)
Definition honours_epochs {Rec} {R : Ops Rec} (t : Rec) : Prop :=
  forall epochs, exists logs,
    List.length logs = epochs
    /\ fst (train t epochs) = (fit_signals logs, Ok tt).

End Recognizer.

(** ** A small recogniser that honours the contract

    Used to run the class on concrete inputs.  It keeps the words collected so
    far and whether a listen session is active; like the library it only
    accepts a non-empty string as the word of an example. *)

Module RefRecognizer.

Record state : Type := mkState {
  listening : bool;
  examples : list string;
  loaded : bool
}.

Definition fresh : state := mkState false [] false.

Definition bad_word : Exn :=
  Error "Must provide a non-empty string when collecting transfer-learning example".

Definition r_collectExample (t : state) (l : Value) : Res unit * state :=
  match l with
  | VStr s =>
      if (s =? "")%string
      then (Fail bad_word, t)
      else (Ok tt, mkState (listening t) (examples t ++ [s]) (loaded t))
  | _ => (Fail bad_word, t)
  end.

Definition vocabulary (t : state) : list string := nodup string_dec (examples t).

Definition r_countExamples (t : state) : option (list (string * nat)) :=
  Some (map (fun w => (w, count_occ string_dec (examples t) w)) (vocabulary t)).

Definition epoch_logs (e : nat) : Logs :=
  mkLogs (1 # Pos.of_nat (S e)) (Z.of_nat e # Pos.of_nat (S e)).

Definition r_train (t : state) (epochs : nat) : list TrainSignal * Res unit * state :=
  (Recognizer.fit_signals (map epoch_logs (seq 0 epochs)), Ok tt, t).

#[global] Instance ops : Recognizer.Ops state := {|
  Recognizer.create := fun _ _ => fresh;
  Recognizer.ensureModelLoaded := fun t => (Ok tt, mkState (listening t) (examples t) true);
  Recognizer.createTransfer := fun b _ => (Ok (mkState false [] true), b);
  Recognizer.isListening := listening;
  Recognizer.stopListening := fun t => mkState false (examples t) (loaded t);
  Recognizer.collectExample := r_collectExample;
  Recognizer.countExamples := r_countExamples;
  Recognizer.wordLabels := fun t => map VStr (vocabulary t);
  Recognizer.train := r_train;
  Recognizer.listen := fun t _ => (Ok tt, mkState true (examples t) (loaded t));
  Recognizer.save := fun t => (Ok "{}", t);
  Recognizer.getMetadata := fun _ => "{}"
|}.

(** A decimal rendering for running examples: [digits] places after the
    point, rounded half away from zero. *)
Definition digit (d : Z) : ascii := ascii_of_nat (48 + Z.to_nat d).

Fixpoint frac_digits (digits : nat) (num den : Z) : string :=
  match digits with
  | O => ""
  | S d => String (digit (num * 10 / den)) (frac_digits d ((num * 10) mod den) den)
  end.

Definition r_toFixed (q : Q) (digits : nat) : string :=
  let a := Qred (Qabs q + (1 # (2 * Pos.pow 10 (Pos.of_nat digits)))) in
  let den := Z.pos (Qden a) in
  ((if Qle_bool 0 q then "" else "-")
   ++ NilZero.string_of_uint (N.to_uint (Z.to_N (Qnum a / den)))
   ++ "." ++ frac_digits digits (Qnum a mod den) den)%string.

Definition r_saveBlob (data name mime : string) : Res unit := Ok tt.

End RefRecognizer.

(** ** The instance *)

(** How a method call ends.  For an [async] method [Returned] is the promise
    resolving and [Threw] the promise rejecting. *)
Inductive Outcome (A : Type) : Type :=
| Returned (a : A)
| Threw (e : Exn).
Arguments Returned {A} a.
Arguments Threw {A} e.

(** What a method hands back. *)
Inductive JsRet : Type :=
| RUndefined
| RThis
| RModel
| RCallbackResult.

Section Extractor.

Context {Rec : Type} {R : Recognizer.Ops Rec}.

(** [Number.prototype.toFixed] *)
Variable toFixed : Q -> nat -> string.
(** [saveBlob(data, name, type)] of [utils/io] *)
Variable saveBlob : string -> string -> string -> Res unit.

(** Fields of a [SpeechCommands] instance.  [wordLabels] and [examplesCount]
    are not set by the constructor: [None] is [undefined]. *)
Record SpeechCommands : Type := mkSpeechCommands {
  speechCommandsModel : option Rec;
  isPredicting : bool;
  usageType : option string;
  options : Options;
  model : option Rec;
  wordLabels : option (list Value);
  examplesCount : option (option (list (string * nat)))
}.

Definition set_speechCommandsModel (v : option Rec) (s : SpeechCommands) :=
  mkSpeechCommands v (isPredicting s) (usageType s) (options s) (model s)
                   (wordLabels s) (examplesCount s).
Definition set_isPredicting (v : bool) (s : SpeechCommands) :=
  mkSpeechCommands (speechCommandsModel s) v (usageType s) (options s) (model s)
                   (wordLabels s) (examplesCount s).
Definition set_usageType (v : option string) (s : SpeechCommands) :=
  mkSpeechCommands (speechCommandsModel s) (isPredicting s) v (options s) (model s)
                   (wordLabels s) (examplesCount s).
Definition set_options (v : Options) (s : SpeechCommands) :=
  mkSpeechCommands (speechCommandsModel s) (isPredicting s) (usageType s) v (model s)
                   (wordLabels s) (examplesCount s).
Definition set_model (v : option Rec) (s : SpeechCommands) :=
  mkSpeechCommands (speechCommandsModel s) (isPredicting s) (usageType s) (options s) v
                   (wordLabels s) (examplesCount s).
Definition set_wordLabels (v : option (list Value)) (s : SpeechCommands) :=
  mkSpeechCommands (speechCommandsModel s) (isPredicting s) (usageType s) (options s)
                   (model s) v (examplesCount s).
Definition set_examplesCount (v : option (option (list (string * nat))))
           (s : SpeechCommands) :=
  mkSpeechCommands (speechCommandsModel s) (isPredicting s) (usageType s) (options s)
                   (model s) (wordLabels s) v.

(** *** The monad of a method body

    A method runs on [this], returns or throws, and leaves a trace; an
    [EAwait] in the trace marks each suspension of an [async] body. *)

Definition M (A : Type) : Type :=
  SpeechCommands -> Outcome A * SpeechCommands * list Event.

Definition ret {A} (a : A) : M A := fun this => (Returned a, this, []).

Definition throw {A} (e : Exn) : M A := fun this => (Threw e, this, []).

Definition bind {A B} (m : M A) (k : A -> M B) : M B :=
  fun this =>
    match m this with
    | (Returned a, this1, tr1) =>
        match k a this1 with
        | (o, this2, tr2) => (o, this2, tr1 ++ tr2)
        end
    | (Threw e, this1, tr1) => (Threw e, this1, tr1)
    end.

Notation "x <- m ;; k" := (bind m (fun x => k))
  (at level 61, m at next level, right associativity).
Notation "m ;; k" := (bind m (fun _ => k))
  (at level 61, right associativity).

Definition emit (e : Event) : M unit := fun this => (Returned tt, this, [e]).
Definition read {A} (field : SpeechCommands -> A) : M A :=
  fun this => (Returned (field this), this, []).
Definition write (upd : SpeechCommands -> SpeechCommands) : M unit :=
  fun this => (Returned tt, upd this, []).

(** [this.model.<member>]: dereferencing a null [model] is a [TypeError]. *)
Definition this_model : M Rec :=
  fun this =>
    match model this with
    | Some t => (Returned t, this, [])
    | None => (Threw (TypeError "Cannot read properties of null"), this, [])
    end.

(** [f(args)]: calling something that is not a function is a [TypeError]. *)
Definition invoke (f : Value) (args : list Arg) : M unit :=
  if (typeof f =? "function")%string then emit (ECall f args)
  else throw (TypeError "is not a function").

(** Settling of an awaited collaborator promise. *)
Definition settle {A} (r : Res A) : M A :=
  match r with
  | Ok a => ret a
  | Fail e => throw e
  end.

(** *** Helpers imported by the class *)

(** Modelled from the spec: [callCallback] of [utils/callcallback] is imported
    by the class and its source is not at hand.  The spec gives the callback
    convention: an optional trailing callback receives [(error, result)],
    the error being absent on success, and a failure "surfaces through the
    completion callback rather than being swallowed"; the promise itself is
    handed back unchanged. *)
Definition callCallback {A} (promise : M A) (result : A -> Arg) (callback : Value)
  : M A :=
  fun this =>
    match promise this with
    | (Returned a, this1, tr) =>
        (Returned a, this1,
         if truthy callback then tr ++ [ECall callback [AVal VUndefined; result a]] else tr)
    | (Threw e, this1, tr) =>
        (Threw e, this1,
         if truthy callback then tr ++ [ECall callback [AExn e]] else tr)
    end.

(** Insertion of a class into a list ranked by descending probability; equal
    probabilities keep their order of arrival. *)
Fixpoint insert_desc (c : Value * Q) (l : list (Value * Q)) : list (Value * Q) :=
  match l with
  | [] => [c]
  | d :: l' => if Qle_bool (snd c) (snd d) then d :: insert_desc c l' else c :: l
  end.

Definition sort_desc (l : list (Value * Q)) : list (Value * Q) :=
  fold_right insert_desc [] l.

(** Modelled from the spec: [getTopKClassesFromArray] of [utils/gettopkclasses]
    is imported by the class and its source is not at hand.  The spec: "the
    top-K classes (K = requested class-count, clamped to available labels) are
    extracted, ranked by descending confidence".  Each score is paired with
    the label of the same index; the result is a list of
    [(className, probability)]. *)
Definition getTopKClassesFromArray (values : list Q) (topK : Z) (classes : list Value)
  : list (Value * Q) :=
  firstn (Z.to_nat (Z.min topK (Z.of_nat (List.length classes))))
         (sort_desc (combine classes values)).

(** *** constructor and loadModel *)

Definition loadModel : M JsRet :=
  emit (ECreate None None) ;;
  write (set_speechCommandsModel (Some (Recognizer.create None None))) ;;
  emit EEnsureModelLoaded ;;
  emit EAwait ;;
  r <- (fun this =>
          match speechCommandsModel this with
          | Some b =>
              (Returned (fst (Recognizer.ensureModelLoaded b)),
               set_speechCommandsModel (Some (snd (Recognizer.ensureModelLoaded b))) this,
               [])
          | None => (Threw (TypeError "Cannot read properties of null"), this, [])
          end) ;;
  settle r ;;
  ret RThis.

(** [new SpeechCommands(callback)]: the outcome is that of [this.ready]. *)
Definition constructor (callback : Value)
  : Outcome JsRet * SpeechCommands * list Event :=
  match callCallback loadModel (fun _ => AThis) callback
                     (mkSpeechCommands None false None [] None None None) with
  | (ready, this1, tr) => (ready, set_model None (set_options [] this1), tr)
  end.

(** *** classification *)

Definition classification (opts : Value) : M JsRet :=
  write (set_usageType (Some "classifier")) ;;
  r <- (fun this =>
          match speechCommandsModel this with
          | Some b =>
              (Returned (fst (Recognizer.createTransfer b "transfer")),
               set_speechCommandsModel
                 (Some (snd (Recognizer.createTransfer b "transfer"))) this,
               [ECreateTransfer "transfer"])
          | None => (Threw (TypeError "Cannot read properties of null"), this, [])
          end) ;;
  t <- settle r ;;
  write (set_model (Some t)) ;;
  (if (typeof opts =? "object")%string
   then write (fun this => set_options (Object_assign (options this) opts) this)
   else ret tt) ;;
  ret RThis.

(** *** addExample *)

Definition addExampleInternal (lbl : Value) : M JsRet :=
  t <- this_model ;;
  emit (EIsListening (Recognizer.isListening t)) ;;
  (if Recognizer.isListening t
   then emit EStopListening ;; write (set_model (Some (Recognizer.stopListening t)))
   else ret tt) ;;
  t1 <- this_model ;;
  emit (ECollectExample lbl) ;;
  emit EAwait ;;
  write (set_model (Some (snd (Recognizer.collectExample t1 lbl)))) ;;
  settle (fst (Recognizer.collectExample t1 lbl)) ;;
  ret RThis.

Definition addExample (labelOrCallback cb : Value) : M JsRet :=
  let lbl :=
    if ((typeof labelOrCallback =? "string") || (typeof labelOrCallback =? "number"))%string
    then labelOrCallback else VUndefined in
  let callback :=
    if ((typeof labelOrCallback =? "string") || (typeof labelOrCallback =? "number"))%string
    then cb
    else if (typeof labelOrCallback =? "function")%string then labelOrCallback else cb in
  callCallback (addExampleInternal lbl) (fun _ => AThis) callback.

(** *** train *)

(** [!count || Object.keys(count).length <= 0] *)
Definition no_examples (count : option (list (string * nat))) : bool :=
  match count with
  | None => true
  | Some o => (List.length (map fst o) <=? 0)%nat
  end.

Definition is_classifier (u : option string) : bool :=
  match u with
  | Some s => (s =? "classifier")%string
  | None => false
  end.

(** The two callbacks of the training config. *)
Definition onEpochEnd (onProgress : Value) (epoch : nat) (logs : Logs) : M unit :=
  emit EConsoleLog ;;
  invoke onProgress [AVal (VStr (toFixed (loss logs) 5))].

Definition onTrainEnd (onProgress : Value) : M unit :=
  invoke onProgress [AVal VNull].

(** The collaborator fires them; one that throws makes the run reject. *)
Fixpoint fire (onProgress : Value) (signals : list TrainSignal) : M unit :=
  match signals with
  | [] => ret tt
  | EpochEnd epoch logs :: rest =>
      onEpochEnd onProgress epoch logs ;; fire onProgress rest
  | TrainEnd :: rest =>
      onTrainEnd onProgress ;; fire onProgress rest
  end.

Definition train (onProgress : Value) : M JsRet :=
  t <- this_model ;;
  emit ECountExamples ;;
  write (set_examplesCount (Some (Recognizer.countExamples t))) ;;
  count <- read examplesCount ;;
  if match count with Some c => no_examples c | None => true end
  then throw (Error "Add some examples before training!")
  else
    write (set_isPredicting false) ;;
    u <- read usageType ;;
    if is_classifier u
    then
      t1 <- this_model ;;
      emit EWordLabels ;;
      write (set_wordLabels (Some (Recognizer.wordLabels t1))) ;;
      t2 <- this_model ;;
      emit (ETrain 25) ;;
      emit EAwait ;;
      write (set_model (Some (snd (Recognizer.train t2 25)))) ;;
      fire onProgress (fst (fst (Recognizer.train t2 25))) ;;
      settle (snd (fst (Recognizer.train t2 25))) ;;
      ret RUndefined
    else ret RUndefined.

(** *** classify *)

(** The callback handed to [model.listen]: it reads [this.wordLabels] when a
    result arrives.  Indexing an undefined label list is a [TypeError]. *)
Definition onListenResult (topk : Z) (cb : Value) (result : ListenResult) : M JsRet :=
  match scores result with
  | Some values =>
      labels <- read wordLabels ;;
      match labels with
      | Some wl =>
          let classes :=
            map (fun c => mkClass (fst c) (snd c))
                (getTopKClassesFromArray values topk wl) in
          invoke cb [AVal VNull; AClasses classes] ;;
          ret RCallbackResult
      | None => throw (TypeError "Cannot read properties of undefined")
      end
  | None =>
      invoke cb [AVal (VStr ("ERROR: Cannot find scores in result: " ++ shown result))] ;;
      ret RCallbackResult
  end.

Definition classifyInternal (topk : Z) (cb : Value) : M JsRet :=
  t <- this_model ;;
  emit (EIsListening (Recognizer.isListening t)) ;;
  (if Recognizer.isListening t
   then emit EStopListening ;; write (set_model (Some (Recognizer.stopListening t)))
   else ret tt) ;;
  t1 <- this_model ;;
  opts <- read options ;;
  emit (EListen topk cb opts) ;;
  write (set_model (Some (snd (Recognizer.listen t1 opts)))) ;;
  match fst (Recognizer.listen t1 opts) with
  | Ok _ => ret RUndefined
  | Fail err =>
      invoke cb [AVal (VStr ("ERROR: " ++ message err))] ;;
      ret RCallbackResult
  end.

Definition classify (numOrCallback cb : Value) : M JsRet :=
  u <- read usageType ;;
  if negb (is_classifier u)
  then throw (Error "SpeechCommands Feature Extraction has not been set to be a classifier.")
  else
    labels <- read wordLabels ;;
    match labels with
    | None => throw (TypeError "Cannot read properties of undefined (reading 'length')")
    | Some wl =>
        let numberOfClasses :=
          match numOrCallback with
          | VNum n => n
          | _ => Z.of_nat (List.length wl)
          end in
        let callback :=
          if (typeof numOrCallback =? "number")%string then VUndefined
          else if (typeof numOrCallback =? "function")%string then numOrCallback
          else VUndefined in
        let callback := if (typeof cb =? "function")%string then cb else callback in
        classifyInternal numberOfClasses callback
    end.

(** *** load and save *)

Definition load (filesOrPath callback : Value) : M JsRet :=
  match filesOrPath with
  | VStr path =>
      let modelURL := (path ++ "/model.json")%string in
      let metadataURL := (path ++ "/metadata.json")%string in
      emit (ECreate (Some modelURL) (Some metadataURL)) ;;
      write (set_model (Some (Recognizer.create (Some modelURL) (Some metadataURL)))) ;;
      t <- this_model ;;
      emit EEnsureModelLoaded ;;
      emit EAwait ;;
      write (set_model (Some (snd (Recognizer.ensureModelLoaded t)))) ;;
      settle (fst (Recognizer.ensureModelLoaded t)) ;;
      t1 <- this_model ;;
      emit EWordLabels ;;
      write (set_wordLabels (Some (Recognizer.wordLabels t1))) ;;
      (if truthy callback then invoke callback [] else ret tt) ;;
      ret RModel
  | _ => ret RModel
  end.

(** The save handler given to [model.save]: it runs when the collaborator
    hands over the artifacts; its promise is not awaited by [save]. *)
Definition saveHandler (data : string) (callback : Value) : M unit :=
  emit EConsoleLog ;;
  t <- this_model ;;
  emit EGetMetadata ;;
  emit EConsoleLog ;;
  emit (ESaveBlob "model.json" "text/plain") ;;
  emit EAwait ;;
  settle (saveBlob data "model.json" "text/plain") ;;
  emit (ESaveBlob "metadata.json" "text/plain") ;;
  emit EAwait ;;
  settle (saveBlob (Recognizer.getMetadata t) "metadata.json" "text/plain") ;;
  (if truthy callback then invoke callback [] else ret tt).

Definition save (callback : Value) : M JsRet :=
  m <- read model ;;
  match m with
  | None => throw (Error "No model found.")
  | Some t =>
      emit ESave ;;
      write (set_model (Some (snd (Recognizer.save t)))) ;;
      (fun this =>
         match fst (Recognizer.save t) with
         | Ok data =>
             match saveHandler data callback this with
             | (_, this1, tr) => (Returned RUndefined, this1, tr)
             end
         | Fail _ => (Returned RUndefined, this, [])
         end)
  end.

(** *** Call sequences used to state the lifecycle properties *)

(** [addExample(l, cb)] for each label in turn, each awaited. *)
Fixpoint addExamples (labels : list Value) (cb : Value) : M JsRet :=
  match labels with
  | [] => ret RThis
  | l :: rest => addExample l cb ;; addExamples rest cb
  end.

(** [classification(opts)], the examples, then [train(onProgress)]. *)
Definition collectAndTrain (opts : Value) (labels : list Value) (cb onProgress : Value)
  : M JsRet :=
  classification opts ;;
  addExamples labels cb ;;
  train onProgress.

End Extractor.

Arguments SpeechCommands : clear implicits.
Arguments M : clear implicits.

Definition outcome {S A} (r : Outcome A * S * list Event) : Outcome A := fst (fst r).
Definition final {S A} (r : Outcome A * S * list Event) : S := snd (fst r).
Definition trace {S A} (r : Outcome A * S * list Event) : list Event := snd r.

(** ** Vocabulary of the properties *)

(** Events that start a capture or a listen loop on the collaborator. *)
Definition is_start (e : Event) : bool :=
  match e with
  | ECollectExample _ | EListen _ _ _ => true
  | _ => false
  end.

Definition starts (tr : list Event) : list Event := filter is_start tr.

(** Invocations of user callbacks. *)
Definition is_call (e : Event) : bool :=
  match e with
  | ECall _ _ => true
  | _ => false
  end.

Definition calls (tr : list Event) : list Event := filter is_call tr.

(** The recogniser a start is issued on, once the listening check is done. *)
Definition stopped {Rec} {R : Recognizer.Ops Rec} (t : Rec) : Rec :=
  if Recognizer.isListening t then Recognizer.stopListening t else t.

(** The calls that precede a start. *)
Definition listening_check {Rec} {R : Recognizer.Ops Rec} (t : Rec) : list Event :=
  EIsListening (Recognizer.isListening t)
  :: (if Recognizer.isListening t then [EStopListening] else []).

(** The label [addExample] settles on. *)
Definition label_of (labelOrCallback : Value) : Value :=
  if ((typeof labelOrCallback =? "string") || (typeof labelOrCallback =? "number"))%string
  then labelOrCallback else VUndefined.

(** The class count and the callback [classify] settles on. *)
Definition topk_of (numOrCallback : Value) (wl : list Value) : Z :=
  match numOrCallback with
  | VNum n => n
  | _ => Z.of_nat (List.length wl)
  end.

Definition callback_of (numOrCallback cb : Value) : Value :=
  if (typeof cb =? "function")%string then cb
  else if (typeof numOrCallback =? "number")%string then VUndefined
       else if (typeof numOrCallback =? "function")%string then numOrCallback
            else VUndefined.

(** Whether [train] gets past its check of the example counts. *)
Definition passes_check {Rec} {R : Recognizer.Ops Rec} (this : SpeechCommands Rec)
  : bool :=
  match model this with
  | Some t => negb (no_examples (Recognizer.countExamples t))
  | None => false
  end.

(** What the training callbacks leave in the trace for one signal. *)
Definition signal_events (toFixed : Q -> nat -> string) (onProgress : Value)
           (s : TrainSignal) : list Event :=
  match s with
  | EpochEnd _ logs =>
      [EConsoleLog; ECall onProgress [AVal (VStr (toFixed (loss logs) 5%nat))]]
  | TrainEnd => [ECall onProgress [AVal VNull]]
  end.

(** What firing the training callbacks amounts to: how it ends and what it
    leaves in the trace.  A callback that is not a function throws. *)
Fixpoint fired (toFixed : Q -> nat -> string) (onProgress : Value)
         (signals : list TrainSignal) : Outcome unit * list Event :=
  match signals with
  | [] => (Returned tt, [])
  | s :: rest =>
      if (typeof onProgress =? "function")%string
      then (fst (fired toFixed onProgress rest),
            signal_events toFixed onProgress s ++ snd (fired toFixed onProgress rest))
      else (Threw (TypeError "is not a function"),
            match s with
            | EpochEnd _ _ => [EConsoleLog]
            | TrainEnd => []
            end)
  end.

(** What [onProgress] is called with after an epoch, and once training ends. *)
Definition progress_call (toFixed : Q -> nat -> string) (onProgress : Value)
           (logs : Logs) : Event :=
  ECall onProgress [AVal (VStr (toFixed (loss logs) 5%nat))].

Definition done_call (onProgress : Value) : Event :=
  ECall onProgress [AVal VNull].

(** [isPredicting] mirrors the collaborator's streaming state. *)
Definition flag_tracks_stream {Rec} {R : Recognizer.Ops Rec} (this : SpeechCommands Rec)
  : Prop :=
  isPredicting this
  = match model this with
    | Some t => Recognizer.isListening t
    | None => false
    end.

(** [needle] occurs in [hay]. *)
Definition contains (needle hay : string) : bool :=
  match index 0 needle hay with
  | Some _ => true
  | None => false
  end.

(** Descending order of probability, on the helper's own pairs. *)
Definition prob_ge (a b : Value * Q) : Prop := (snd b <= snd a)%Q.

(** Descending order of confidence. *)
Definition conf_ge (a b : ClassResult) : Prop := (confidence b <= confidence a)%Q.

(** ** Concrete instances, on the small recogniser *)

Module Example.

Definition cb : Value := VFun 0.
Definition onProgress : Value := VFun 1.

Definition fresh : SpeechCommands RefRecognizer.state :=
  final (constructor VUndefined).

Definition configured : SpeechCommands RefRecognizer.state :=
  final (classification VUndefined fresh).

Definition collected : SpeechCommands RefRecognizer.state :=
  final (addExamples [VStr "yes"; VStr "no"; VStr "yes"] VUndefined configured).

Definition trained : SpeechCommands RefRecognizer.state :=
  final (train RefRecognizer.r_toFixed onProgress collected).

Definition streaming : SpeechCommands RefRecognizer.state :=
  final (classify (VNum 2) cb trained).

End Example.

(** ** The public methods as calls, and sessions of calls *)

Inductive Call : Type :=
| Classification (opts : Value)
| AddExample (labelOrCallback cb : Value)
| Train (onProgress : Value)
| Classify (numOrCallback cb : Value)
| Load (filesOrPath callback : Value)
| Save (callback : Value).

Definition call {Rec} {R : Recognizer.Ops Rec}
           (toFixed : Q -> nat -> string)
           (saveBlob : string -> string -> string -> Res unit)
           (c : Call) : M Rec JsRet :=
  match c with
  | Classification opts => classification opts
  | AddExample labelOrCallback cb => addExample labelOrCallback cb
  | Train onProgress => train toFixed onProgress
  | Classify numOrCallback cb => classify numOrCallback cb
  | Load filesOrPath callback => load filesOrPath callback
  | Save callback => save saveBlob callback
  end.

(** The instance after a sequence of calls, each made whatever the previous
    one came to. *)
Fixpoint session {Rec} {R : Recognizer.Ops Rec}
         (toFixed : Q -> nat -> string)
         (saveBlob : string -> string -> string -> Res unit)
         (cs : list Call) (this : SpeechCommands Rec) : SpeechCommands Rec :=
  match cs with
  | [] => this
  | c :: rest => session toFixed saveBlob rest (final (call toFixed saveBlob c this))
  end.

(** What holds of the fields of an instance throughout its life. *)
Definition well_formed {Rec} (this : SpeechCommands Rec) : Prop :=
  isPredicting this = false
  /\ speechCommandsModel this <> None
  /\ (usageType this = None \/ usageType this = Some "classifier")
  /\ (wordLabels this <> None -> model this <> None)
  /\ (examplesCount this <> None -> model this <> None).

(** Two instances that agree on every field but [model]. *)
Definition only_model_differs {Rec} (a b : SpeechCommands Rec) : Prop :=
  speechCommandsModel a = speechCommandsModel b
  /\ isPredicting a = isPredicting b
  /\ usageType a = usageType b
  /\ options a = options b
  /\ wordLabels a = wordLabels b
  /\ examplesCount a = examplesCount b.

(** The two artifacts of a saved model. *)
Definition modelURL (path : string) : string := (path ++ "/model.json")%string.
Definition metadataURL (path : string) : string := (path ++ "/metadata.json")%string.

(** What [load(path)] constructs. *)
Definition loaded_from {Rec} {R : Recognizer.Ops Rec} (path : string) : Rec :=
  Recognizer.create (Some (modelURL path)) (Some (metadataURL path)).

(** The calls of the save handler up to and including the first write. *)
Definition first_write : list Event :=
  [ESave; EConsoleLog; EGetMetadata; EConsoleLog;
   ESaveBlob "model.json" "text/plain"; EAwait].

Definition second_write : list Event :=
  [ESaveBlob "metadata.json" "text/plain"; EAwait].

(** ** A recogniser that is out of reach

    Every call that can fail does.  Used to run the error paths. *)

Module BrokenRecognizer.

Inductive state : Type := Offline.

Definition unreachable : Exn := Error "Failed to fetch".

#[global] Instance ops : Recognizer.Ops state := {|
  Recognizer.create := fun _ _ => Offline;
  Recognizer.ensureModelLoaded := fun t => (Fail unreachable, t);
  Recognizer.createTransfer := fun b _ => (Fail unreachable, b);
  Recognizer.isListening := fun _ => false;
  Recognizer.stopListening := fun t => t;
  Recognizer.collectExample := fun t _ => (Fail unreachable, t);
  Recognizer.countExamples := fun _ => Some [("yes", 1%nat)];
  Recognizer.wordLabels := fun _ => [VStr "yes"];
  Recognizer.train := fun t _ => ([], Fail unreachable, t);
  Recognizer.listen := fun t _ => (Fail unreachable, t);
  Recognizer.save := fun t => (Fail unreachable, t);
  Recognizer.getMetadata := fun _ => "{}"
|}.

(** A blob store that is full after the first artifact. *)
Definition full_saveBlob (data name mime : string) : Res unit :=
  if (name =? "model.json")%string then Ok tt else Fail (Error "Quota exceeded").

(** An instance in classifier mode on this recogniser. *)
Definition stuck : SpeechCommands state :=
  mkSpeechCommands (Some Offline) false (Some "classifier") []
                   (Some Offline) (Some [VStr "yes"]) None.

End BrokenRecognizer.

(** * Properties *)

Section Properties.

Context {Rec : Type} {R : Recognizer.Ops Rec}.
Variable toFixed : Q -> nat -> string.
Variable saveBlob : string -> string -> string -> Res unit.

Ltac run_method :=
  unfold bind, this_model, emit, write, read, throw, ret, settle; cbn.

(** ** train *)

Lemma train_check_fails (this : SpeechCommands Rec) (t : Rec) (onProgress : Value) :
  model this = Some t ->
  no_examples (Recognizer.countExamples t) = true ->
  train toFixed onProgress this
  = (Threw (Error "Add some examples before training!"),
     set_examplesCount (Some (Recognizer.countExamples t)) this,
     [ECountExamples]).
Proof.
  intros Hm Hc. unfold train. run_method. rewrite Hm. cbn. rewrite Hc. reflexivity.
Qed.

(** C1. If [countExamples()] answers with nothing (a falsy value or an object
    without keys), [train(onProgress)] fails with the error 'Add some examples
    before training!' in the synchronous part of the call: the only thing it
    did was to ask for the counts, it never suspended, and no callback (so no
    [onProgress]) was invoked. *)
Theorem train_without_examples
        (this : SpeechCommands Rec) (t : Rec) (onProgress : Value) :
  model this = Some t ->
  no_examples (Recognizer.countExamples t) = true ->
  outcome (train toFixed onProgress this)
  = Threw (Error "Add some examples before training!")
  /\ trace (train toFixed onProgress this) = [ECountExamples]
  /\ calls (trace (train toFixed onProgress this)) = []
  /\ ~ In EAwait (trace (train toFixed onProgress this))
  /\ final (train toFixed onProgress this)
     = set_examplesCount (Some (Recognizer.countExamples t)) this.
Proof.
  intros Hm Hc. rewrite (train_check_fails this t onProgress Hm Hc). cbn.
  repeat split; try reflexivity.
  intros [H | []]. discriminate H.
Qed.

(** ** save *)

(** With a model in place the call itself always resolves: the promise of
    [model.save] is not awaited. *)
Lemma save_with_model (this : SpeechCommands Rec) (t : Rec) (callback : Value) :
  model this = Some t ->
  outcome (save saveBlob callback this) = Returned RUndefined.
Proof.
  intros Hm. unfold save, outcome, bind, read, emit, write. rewrite Hm.
  destruct (fst (Recognizer.save t)) as [data | e].
  - destruct (saveHandler saveBlob data callback _) as [[o s] tr]. reflexivity.
  - reflexivity.
Qed.

Lemma save_without_model (this : SpeechCommands Rec) (callback : Value) :
  model this = None ->
  save saveBlob callback this = (Threw (Error "No model found."), this, []).
Proof.
  intros Hm. unfold save. run_method. rewrite Hm. reflexivity.
Qed.

Lemma constructor_fields (ready : Value) :
  model (final (constructor ready)) = None
  /\ isPredicting (final (constructor ready)) = false
  /\ usageType (final (constructor ready)) = None
  /\ wordLabels (final (constructor ready)) = None
  /\ options (final (constructor ready)) = [].
Proof.
  unfold constructor, callCallback, loadModel. run_method.
  destruct (fst (Recognizer.ensureModelLoaded (Recognizer.create None None)));
    cbn; repeat split; reflexivity.
Qed.

(** C5. [save()] fails with the error 'No model found.' exactly when the
    instance has no model; it then does nothing else.  A freshly constructed
    instance has no model, so [save()] before any [classification()] fails
    that way. *)
Theorem save_requires_model (this : SpeechCommands Rec) (callback : Value) :
  (outcome (save saveBlob callback this) = Threw (Error "No model found.")
   <-> model this = None)
  /\ (model this = None ->
      save saveBlob callback this = (Threw (Error "No model found."), this, []))
  /\ (forall ready,
         outcome (save saveBlob callback (final (constructor ready)))
         = Threw (Error "No model found."))
  /\ prefix "No model found" "No model found." = true.
Proof.
  split; [| split; [| split]].
  - destruct (model this) as [t |] eqn:Hm.
    + rewrite (save_with_model this t callback Hm). split; discriminate.
    + rewrite (save_without_model this callback Hm). split; reflexivity.
  - apply save_without_model.
  - intros ready. rewrite save_without_model; [reflexivity |].
    apply constructor_fields.
  - reflexivity.
Qed.

(** ** classify: the guards *)

Lemma classify_other_mode (this : SpeechCommands Rec) (numOrCallback cb : Value) :
  is_classifier (usageType this) = false ->
  classify numOrCallback cb this
  = (Threw (Error "SpeechCommands Feature Extraction has not been set to be a classifier."),
     this, []).
Proof.
  intros Hu. unfold classify. run_method. rewrite Hu. reflexivity.
Qed.

Lemma classify_no_labels (this : SpeechCommands Rec) (numOrCallback cb : Value) :
  is_classifier (usageType this) = true ->
  wordLabels this = None ->
  classify numOrCallback cb this
  = (Threw (TypeError "Cannot read properties of undefined (reading 'length')"),
     this, []).
Proof.
  intros Hu Hw. unfold classify. run_method. rewrite Hu. cbn. rewrite Hw. reflexivity.
Qed.

(** C6. Outside classifier mode [classify] fails at once, whatever its
    arguments: it throws the error 'SpeechCommands Feature Extraction has not
    been set to be a classifier.', touches no field and calls nothing. *)
Theorem classify_requires_classifier
        (this : SpeechCommands Rec) (numOrCallback cb : Value) :
  is_classifier (usageType this) = false ->
  outcome (classify numOrCallback cb this)
  = Threw (Error "SpeechCommands Feature Extraction has not been set to be a classifier.")
  /\ final (classify numOrCallback cb this) = this
  /\ trace (classify numOrCallback cb this) = [].
Proof.
  intros Hu. rewrite (classify_other_mode this numOrCallback cb Hu).
  repeat split.
Qed.

(** C10. In classifier mode, as long as [wordLabels] is undefined, every
    [classify] call fails with a [TypeError] on [this.wordLabels.length],
    before its arguments are looked at (a numeric class count included) and
    before anything is called. *)
Theorem classify_before_labels
        (this : SpeechCommands Rec) (numOrCallback cb : Value) :
  is_classifier (usageType this) = true ->
  wordLabels this = None ->
  (exists msg, outcome (classify numOrCallback cb this) = Threw (TypeError msg))
  /\ final (classify numOrCallback cb this) = this
  /\ trace (classify numOrCallback cb this) = []
  /\ (forall k, outcome (classify (VNum k) cb this)
                = outcome (classify numOrCallback cb this)).
Proof.
  intros Hu Hw. split; [| split; [| split]].
  - rewrite (classify_no_labels this numOrCallback cb Hu Hw). eexists. reflexivity.
  - rewrite (classify_no_labels this numOrCallback cb Hu Hw). reflexivity.
  - rewrite (classify_no_labels this numOrCallback cb Hu Hw). reflexivity.
  - intros k. rewrite (classify_no_labels this (VNum k) cb Hu Hw).
    rewrite (classify_no_labels this numOrCallback cb Hu Hw). reflexivity.
Qed.

(** ** Stop before start *)

Lemma addExampleInternal_run (this : SpeechCommands Rec) (t : Rec) (lbl : Value) :
  model this = Some t ->
  addExampleInternal lbl this
  = (match fst (Recognizer.collectExample (stopped t) lbl) with
     | Ok _ => Returned RThis
     | Fail e => Threw e
     end,
     set_model (Some (snd (Recognizer.collectExample (stopped t) lbl)))
               (if Recognizer.isListening t
                then set_model (Some (Recognizer.stopListening t)) this else this),
     listening_check t ++ [ECollectExample lbl; EAwait]).
Proof.
  intros Hm. unfold addExampleInternal, stopped, listening_check. run_method.
  rewrite Hm. cbn.
  destruct (Recognizer.isListening t); cbn.
  - destruct (fst (Recognizer.collectExample (Recognizer.stopListening t) lbl));
      reflexivity.
  - rewrite Hm. destruct (fst (Recognizer.collectExample t lbl)); reflexivity.
Qed.

Lemma addExampleInternal_no_model (this : SpeechCommands Rec) (lbl : Value) :
  model this = None ->
  addExampleInternal lbl this
  = (Threw (TypeError "Cannot read properties of null"), this, []).
Proof.
  intros Hm. unfold addExampleInternal. run_method. rewrite Hm. reflexivity.
Qed.

Lemma addExample_run (this : SpeechCommands Rec) (t : Rec) (l cb : Value) :
  model this = Some t ->
  exists rest,
    trace (addExample l cb this)
    = listening_check t ++ ECollectExample (label_of l) :: rest
    /\ starts rest = []
    /\ final (addExample l cb this)
       = set_model (Some (snd (Recognizer.collectExample (stopped t) (label_of l))))
                   (if Recognizer.isListening t
                    then set_model (Some (Recognizer.stopListening t)) this else this)
    /\ outcome (addExample l cb this)
       = match fst (Recognizer.collectExample (stopped t) (label_of l)) with
         | Ok _ => Returned RThis
         | Fail e => Threw e
         end.
Proof.
  intros Hm. unfold addExample, callCallback. fold (label_of l).
  rewrite (addExampleInternal_run this t (label_of l) Hm).
  set (callback := if (_ || _)%bool then cb else _).
  destruct (fst (Recognizer.collectExample (stopped t) (label_of l))) as [u | e];
    destruct (truthy callback); unfold trace, final, outcome; cbn [fst snd];
    rewrite <- ?app_assoc; cbn [app];
    eexists; (split; [reflexivity | split; [reflexivity | split; reflexivity]]).
Qed.

Lemma addExample_no_model (this : SpeechCommands Rec) (l cb : Value) :
  model this = None ->
  starts (trace (addExample l cb this)) = []
  /\ final (addExample l cb this) = this.
Proof.
  intros Hm. unfold addExample, callCallback. fold (label_of l).
  rewrite (addExampleInternal_no_model this (label_of l) Hm).
  destruct (truthy _); split; reflexivity.
Qed.

Lemma classifyInternal_run (this : SpeechCommands Rec) (t : Rec) (topk : Z) (cb : Value) :
  model this = Some t ->
  exists o rest,
    classifyInternal topk cb this
    = (o,
       set_model (Some (snd (Recognizer.listen (stopped t) (options this))))
                 (if Recognizer.isListening t
                  then set_model (Some (Recognizer.stopListening t)) this else this),
       listening_check t ++ EListen topk cb (options this) :: rest)
    /\ starts rest = []
    /\ (forall u, fst (Recognizer.listen (stopped t) (options this)) = Ok u ->
        o = Returned RUndefined /\ rest = []).
Proof.
  intros Hm. unfold classifyInternal, stopped, listening_check, invoke. run_method.
  rewrite Hm. cbn.
  destruct (Recognizer.isListening t); cbn.
  - destruct (fst (Recognizer.listen (Recognizer.stopListening t) (options this)))
      as [u | e]; cbn.
    + eexists _, []. repeat split.
    + destruct (typeof cb =? "function")%string; cbn; eexists _, _;
        (split; [reflexivity |]); split; try reflexivity; discriminate.
  - rewrite Hm. destruct (fst (Recognizer.listen t (options this))) as [u | e]; cbn.
    + eexists _, []. repeat split.
    + destruct (typeof cb =? "function")%string; cbn; eexists _, _;
        (split; [reflexivity |]); split; try reflexivity; discriminate.
Qed.

Lemma classifyInternal_no_model (this : SpeechCommands Rec) (topk : Z) (cb : Value) :
  model this = None ->
  classifyInternal topk cb this
  = (Threw (TypeError "Cannot read properties of null"), this, []).
Proof.
  intros Hm. unfold classifyInternal. run_method. rewrite Hm. reflexivity.
Qed.

Lemma classify_run (this : SpeechCommands Rec) (wl : list Value) (n cb : Value) :
  is_classifier (usageType this) = true ->
  wordLabels this = Some wl ->
  classify n cb this = classifyInternal (topk_of n wl) (callback_of n cb) this.
Proof.
  intros Hu Hw. unfold classify, topk_of, callback_of.
  unfold bind at 1, read at 1. rewrite Hu. cbn [negb].
  unfold bind at 1, read. rewrite Hw.
  destruct (classifyInternal _ _ this) as [[o s] tr]. reflexivity.
Qed.

Lemma starts_listening_check (t : Rec) : starts (listening_check t) = [].
Proof.
  unfold listening_check. destruct (Recognizer.isListening t); reflexivity.
Qed.

Lemma starts_cons (e : Event) (rest : list Event) :
  is_start e = true -> starts (e :: rest) = e :: starts rest.
Proof. intros H. unfold starts. cbn. rewrite H. reflexivity. Qed.

Lemma starts_app (a b : list Event) : starts (a ++ b) = starts a ++ starts b.
Proof. apply filter_app. Qed.

Lemma stopped_not_listening (L : Recognizer.Laws R) (t : Rec) :
  Recognizer.isListening (stopped t) = false.
Proof.
  unfold stopped. destruct (Recognizer.isListening t) eqn:E.
  - apply Recognizer.stop_not_listening.
  - exact E.
Qed.

(** C3. From every state, [addExample] and [classify] start at most one
    capture or listen loop per call, and whenever they start one they have
    first asked the model whether it is listening and, if it was, stopped it:
    the start is issued on a recogniser that is not listening. *)
Theorem stop_before_start (L : Recognizer.Laws R) (this : SpeechCommands Rec) :
  (forall l cb, (List.length (starts (trace (addExample l cb this))) <= 1)%nat)
  /\ (forall n cb, (List.length (starts (trace (classify n cb this))) <= 1)%nat)
  /\ (forall t, model this = Some t ->
        Recognizer.isListening (stopped t) = false
        /\ (forall l cb, exists lbl rest,
               trace (addExample l cb this)
               = listening_check t ++ ECollectExample lbl :: rest
               /\ starts rest = []
               /\ model (final (addExample l cb this))
                  = Some (snd (Recognizer.collectExample (stopped t) lbl)))
        /\ (forall n cb wl,
               is_classifier (usageType this) = true ->
               wordLabels this = Some wl ->
               exists k c rest,
                 trace (classify n cb this)
                 = listening_check t ++ EListen k c (options this) :: rest
                 /\ starts rest = []
                 /\ model (final (classify n cb this))
                    = Some (snd (Recognizer.listen (stopped t) (options this))))).
Proof.
  split; [| split].
  - intros l cb. destruct (model this) as [t |] eqn:Hm.
    + destruct (addExample_run this t l cb Hm) as (rest & Ht & Hr & _).
      rewrite Ht, starts_app, starts_listening_check, starts_cons, Hr by reflexivity.
      cbn. lia.
    + rewrite (proj1 (addExample_no_model this l cb Hm)). cbn. lia.
  - intros n cb.
    destruct (is_classifier (usageType this)) eqn:Hu.
    2:{ rewrite classify_other_mode by exact Hu. cbn. lia. }
    destruct (wordLabels this) as [wl |] eqn:Hw.
    2:{ rewrite classify_no_labels by assumption. cbn. lia. }
    rewrite (classify_run this wl n cb Hu Hw).
    destruct (model this) as [t |] eqn:Hm.
    + destruct (classifyInternal_run this t (topk_of n wl) (callback_of n cb) Hm)
        as (o & rest & E & Hr & _).
      rewrite E. unfold trace. cbn [snd].
      rewrite starts_app, starts_listening_check, starts_cons, Hr by reflexivity.
      cbn. lia.
    + rewrite classifyInternal_no_model by exact Hm. cbn. lia.
  - intros t Hm. split; [apply stopped_not_listening; exact L | split].
    + intros l cb.
      destruct (addExample_run this t l cb Hm) as (rest & Ht & Hr & Hf & _).
      exists (label_of l), rest. rewrite Hf. repeat split; assumption.
    + intros n cb wl Hu Hw. rewrite (classify_run this wl n cb Hu Hw).
      destruct (classifyInternal_run this t (topk_of n wl) (callback_of n cb) Hm)
        as (o & rest & E & Hr & _).
      exists (topk_of n wl), (callback_of n cb), rest. rewrite E.
      repeat split; assumption.
Qed.

(** ** classification *)

Lemma lookup_set_prop (k k' : string) (v : Scalar) (o : Options) :
  lookup k (set_prop k' v o) = if (k =? k')%string then Some v else lookup k o.
Proof.
  induction o as [| [k0 v0] o IH]; cbn.
  - reflexivity.
  - destruct (String.eqb_spec k' k0) as [-> | Hne]; cbn.
    + destruct (k =? k0)%string; reflexivity.
    + rewrite IH. destruct (String.eqb_spec k k0) as [-> | Hne'].
      * destruct (String.eqb_spec k0 k') as [E | _]; [| reflexivity].
        exfalso. apply Hne. symmetry. exact E.
      * reflexivity.
Qed.

Lemma lookup_app (k : string) (a b : Options) :
  lookup k (a ++ b)
  = match lookup k a with
    | Some v => Some v
    | None => lookup k b
    end.
Proof.
  induction a as [| [k0 v0] a IH]; cbn.
  - reflexivity.
  - destruct (k =? k0)%string; [reflexivity | exact IH].
Qed.

(** [Object.assign]: a key of the source wins, and among equal keys of the
    source the later one; the other keys of the target are kept. *)
Lemma lookup_assign (k : string) (props : list (string * Scalar)) (o : Options) :
  lookup k (Object_assign o (VObj props))
  = match lookup k (rev props) with
    | Some v => Some v
    | None => lookup k o
    end.
Proof.
  unfold Object_assign. cbn [own_props].
  revert o. induction props as [| [k0 v0] props IH]; intros o; cbn.
  - reflexivity.
  - rewrite IH, lookup_app, lookup_set_prop. cbn.
    destruct (lookup k (rev props)); [reflexivity |].
    destruct (k =? k0)%string; reflexivity.
Qed.

Lemma assign_non_object (o : Options) (v : Value) :
  (forall props, v <> VObj props) -> Object_assign o v = o.
Proof.
  intros H. destruct v; try reflexivity. exfalso. apply (H props). reflexivity.
Qed.

Lemma classification_run (this : SpeechCommands Rec) (b : Rec) (opts : Value) :
  speechCommandsModel this = Some b ->
  classification opts this
  = match fst (Recognizer.createTransfer b "transfer") with
    | Ok t =>
        (Returned RThis,
         mkSpeechCommands (Some (snd (Recognizer.createTransfer b "transfer")))
                          (isPredicting this) (Some "classifier")
                          (if (typeof opts =? "object")%string
                           then Object_assign (options this) opts else options this)
                          (Some t) (wordLabels this) (examplesCount this),
         [ECreateTransfer "transfer"])
    | Fail e =>
        (Threw e,
         mkSpeechCommands (Some (snd (Recognizer.createTransfer b "transfer")))
                          (isPredicting this) (Some "classifier") (options this)
                          (model this) (wordLabels this) (examplesCount this),
         [ECreateTransfer "transfer"])
    end.
Proof.
  intros Hb. unfold classification. run_method. rewrite Hb. cbn.
  destruct (fst (Recognizer.createTransfer b "transfer")) as [t | e]; cbn.
  - destruct (typeof opts =? "object")%string; reflexivity.
  - reflexivity.
Qed.

(** C9. [classification(options)] puts the instance in classifier mode and
    replaces [model] by the transfer recogniser just created from the base
    model, whatever [model] was before; it returns the instance.  The options
    are merged only when [typeof options] is 'object': the keys of the
    argument override the stored ones (a later key overriding an earlier
    one), [null] merges nothing, and any other argument is ignored without an
    error. *)
Theorem classification_resets
        (this : SpeechCommands Rec) (b b' t : Rec) (opts : Value) :
  speechCommandsModel this = Some b ->
  Recognizer.createTransfer b "transfer" = (Ok t, b') ->
  outcome (classification opts this) = Returned RThis
  /\ trace (classification opts this) = [ECreateTransfer "transfer"]
  /\ usageType (final (classification opts this)) = Some "classifier"
  /\ model (final (classification opts this)) = Some t
  /\ (forall props k,
        opts = VObj props ->
        lookup k (options (final (classification opts this)))
        = match lookup k (rev props) with
          | Some v => Some v
          | None => lookup k (options this)
          end)
  /\ ((forall props, opts <> VObj props) ->
      options (final (classification opts this)) = options this).
Proof.
  intros Hb Ht. rewrite (classification_run this b opts Hb), Ht. cbn.
  repeat split.
  - intros props k ->. cbn. apply lookup_assign.
  - intros Hno. destruct (typeof opts =? "object")%string; [| reflexivity].
    apply assign_non_object. exact Hno.
Qed.

(** ** The [isPredicting] field *)

Lemma fire_fired (onProgress : Value) (signals : list TrainSignal)
      (this : SpeechCommands Rec) :
  fire toFixed onProgress signals this
  = (fst (fired toFixed onProgress signals), this,
     snd (fired toFixed onProgress signals)).
Proof.
  revert this. induction signals as [| [epoch logs |] rest IH]; intros this.
  - reflexivity.
  - cbn [fire fired]. unfold onEpochEnd, invoke. run_method.
    destruct (typeof onProgress =? "function")%string; cbn; [| reflexivity].
    rewrite IH. destruct (fired toFixed onProgress rest) as [[u | e] tr]; reflexivity.
  - cbn [fire fired]. unfold onTrainEnd, invoke. run_method.
    destruct (typeof onProgress =? "function")%string; cbn; [| reflexivity].
    rewrite IH. destruct (fired toFixed onProgress rest) as [[u | e] tr]; reflexivity.
Qed.

Lemma fired_function (onProgress : Value) (signals : list TrainSignal) :
  typeof onProgress = "function" ->
  fired toFixed onProgress signals
  = (Returned tt, flat_map (signal_events toFixed onProgress) signals).
Proof.
  intros Hf. induction signals as [| [epoch logs |] rest IH].
  - reflexivity.
  - cbn [fired]. rewrite Hf, IH. reflexivity.
  - cbn [fired]. rewrite Hf, IH. reflexivity.
Qed.

(** [train] once the example check has passed, in classifier mode. *)
Lemma train_classifier_run (this : SpeechCommands Rec) (t : Rec) (onProgress : Value) :
  model this = Some t ->
  no_examples (Recognizer.countExamples t) = false ->
  is_classifier (usageType this) = true ->
  train toFixed onProgress this
  = (match fst (fired toFixed onProgress (fst (fst (Recognizer.train t 25)))) with
     | Returned _ =>
         match snd (fst (Recognizer.train t 25)) with
         | Ok _ => Returned RUndefined
         | Fail e => Threw e
         end
     | Threw e => Threw e
     end,
     mkSpeechCommands (speechCommandsModel this) false (usageType this) (options this)
                      (Some (snd (Recognizer.train t 25)))
                      (Some (Recognizer.wordLabels t))
                      (Some (Recognizer.countExamples t)),
     [ECountExamples; EWordLabels; ETrain 25; EAwait]
       ++ snd (fired toFixed onProgress (fst (fst (Recognizer.train t 25))))).
Proof.
  intros Hm Hc Hu. unfold train. run_method. rewrite Hm. cbn. rewrite Hc. cbn.
  rewrite Hu. cbn. repeat (rewrite Hm; cbn). rewrite fire_fired.
  destruct (fired toFixed onProgress (fst (fst (Recognizer.train t 25))))
    as [[u | e] tr]; cbn; [| reflexivity].
  destruct (snd (fst (Recognizer.train t 25))) as [u' | e]; cbn;
    rewrite ?app_nil_r; reflexivity.
Qed.

(** [train] once the example check has passed, outside classifier mode: the
    call resolves and nothing is trained. *)
Lemma train_other_mode_run (this : SpeechCommands Rec) (t : Rec) (onProgress : Value) :
  model this = Some t ->
  no_examples (Recognizer.countExamples t) = false ->
  is_classifier (usageType this) = false ->
  train toFixed onProgress this
  = (Returned RUndefined,
     set_isPredicting false (set_examplesCount (Some (Recognizer.countExamples t)) this),
     [ECountExamples]).
Proof.
  intros Hm Hc Hu. unfold train. run_method. rewrite Hm. cbn. rewrite Hc. cbn.
  rewrite Hu. reflexivity.
Qed.

Lemma train_no_model (this : SpeechCommands Rec) (onProgress : Value) :
  model this = None ->
  train toFixed onProgress this
  = (Threw (TypeError "Cannot read properties of null"), this, []).
Proof.
  intros Hm. unfold train. run_method. rewrite Hm. reflexivity.
Qed.

Lemma fit_signals_events (onProgress : Value) (logs : list Logs) :
  flat_map (signal_events toFixed onProgress) (Recognizer.fit_signals logs)
  = flat_map (fun l => [EConsoleLog; progress_call toFixed onProgress l]) logs
    ++ [done_call onProgress].
Proof.
  unfold Recognizer.fit_signals. rewrite flat_map_app. cbn [flat_map signal_events app].
  f_equal. generalize 0%nat as k.
  induction logs as [| l logs IH]; intros k.
  - reflexivity.
  - cbn. rewrite IH. reflexivity.
Qed.

Lemma calls_epochs (onProgress : Value) (logs : list Logs) :
  calls (flat_map (fun l => [EConsoleLog; progress_call toFixed onProgress l]) logs)
  = map (progress_call toFixed onProgress) logs.
Proof.
  induction logs as [| l logs IH]; cbn.
  - reflexivity.
  - unfold calls in IH. rewrite IH. reflexivity.
Qed.

(** C4. In classifier mode, with examples in the store and a recogniser that
    runs the epochs it is asked for, [train(onProgress)] asks for 25 epochs;
    [onProgress] is called once per epoch with [loss.toFixed(5)] of that
    epoch, in order, and then once with [null]: 25 calls with a loss string
    followed by one call with [null], and the call resolves. *)
Theorem train_reports_every_epoch
        (this : SpeechCommands Rec) (t : Rec) (onProgress : Value) :
  model this = Some t ->
  no_examples (Recognizer.countExamples t) = false ->
  is_classifier (usageType this) = true ->
  typeof onProgress = "function" ->
  Recognizer.honours_epochs t ->
  exists logs,
    List.length logs = 25%nat
    /\ fst (Recognizer.train t 25) = (Recognizer.fit_signals logs, Ok tt)
    /\ outcome (train toFixed onProgress this) = Returned RUndefined
    /\ trace (train toFixed onProgress this)
       = [ECountExamples; EWordLabels; ETrain 25; EAwait]
           ++ flat_map (fun l => [EConsoleLog; progress_call toFixed onProgress l]) logs
           ++ [done_call onProgress]
    /\ calls (trace (train toFixed onProgress this))
       = map (progress_call toFixed onProgress) logs ++ [done_call onProgress]
    /\ List.length (calls (trace (train toFixed onProgress this))) = 26%nat.
Proof.
  intros Hm Hc Hu Hf Hfit.
  destruct (Hfit 25%nat) as (logs & Hlen & Hrun).
  exists logs.
  assert (Htrace : trace (train toFixed onProgress this)
                   = [ECountExamples; EWordLabels; ETrain 25; EAwait]
                       ++ flat_map (fun l => [EConsoleLog;
                                              progress_call toFixed onProgress l]) logs
                       ++ [done_call onProgress]).
  { rewrite (train_classifier_run this t onProgress Hm Hc Hu), Hrun.
    cbn [fst snd trace]. rewrite (fired_function onProgress _ Hf).
    cbn [snd]. rewrite fit_signals_events. reflexivity. }
  assert (Hcalls : calls (trace (train toFixed onProgress this))
                   = map (progress_call toFixed onProgress) logs ++ [done_call onProgress]).
  { rewrite Htrace. unfold calls. cbn [app filter is_call].
    rewrite filter_app. fold (calls (flat_map (fun l => [EConsoleLog;
                                     progress_call toFixed onProgress l]) logs)).
    rewrite calls_epochs. reflexivity. }
  repeat split; try assumption.
  - rewrite (train_classifier_run this t onProgress Hm Hc Hu), Hrun.
    cbn [fst snd outcome]. rewrite (fired_function onProgress _ Hf). reflexivity.
  - rewrite Hcalls, length_app, length_map, Hlen. reflexivity.
Qed.

(** ** The [isPredicting] field *)

Lemma saveHandler_state (data : string) (callback : Value) (this : SpeechCommands Rec) :
  final (saveHandler saveBlob data callback this) = this.
Proof.
  unfold saveHandler, invoke. run_method.
  destruct (model this) as [t |]; cbn; [| reflexivity].
  destruct (saveBlob data "model.json" "text/plain") as [u | e]; cbn; [| reflexivity].
  destruct (saveBlob (Recognizer.getMetadata t) "metadata.json" "text/plain")
    as [u' | e]; cbn; [| reflexivity].
  destruct (truthy callback); cbn; [| reflexivity].
  destruct (typeof callback =? "function")%string; reflexivity.
Qed.

Lemma train_isPredicting (this : SpeechCommands Rec) (onProgress : Value) :
  isPredicting (final (train toFixed onProgress this))
  = if passes_check this then false else isPredicting this.
Proof.
  unfold passes_check. destruct (model this) as [t |] eqn:Hm.
  - destruct (no_examples (Recognizer.countExamples t)) eqn:Hc; cbn [negb].
    + rewrite (train_check_fails this t onProgress Hm Hc). reflexivity.
    + destruct (is_classifier (usageType this)) eqn:Hu.
      * rewrite (train_classifier_run this t onProgress Hm Hc Hu). reflexivity.
      * rewrite (train_other_mode_run this t onProgress Hm Hc Hu). reflexivity.
  - rewrite (train_no_model this onProgress Hm). reflexivity.
Qed.

Lemma classification_isPredicting (this : SpeechCommands Rec) (opts : Value) :
  isPredicting (final (classification opts this)) = isPredicting this.
Proof.
  destruct (speechCommandsModel this) as [b |] eqn:Hb.
  - rewrite (classification_run this b opts Hb).
    destruct (fst (Recognizer.createTransfer b "transfer")); reflexivity.
  - unfold classification. run_method. rewrite Hb. reflexivity.
Qed.

Lemma addExample_isPredicting (this : SpeechCommands Rec) (l cb : Value) :
  isPredicting (final (addExample l cb this)) = isPredicting this.
Proof.
  destruct (model this) as [t |] eqn:Hm.
  - destruct (addExample_run this t l cb Hm) as (rest & _ & _ & E & _).
    rewrite E. destruct (Recognizer.isListening t); reflexivity.
  - rewrite (proj2 (addExample_no_model this l cb Hm)). reflexivity.
Qed.

Lemma load_isPredicting (this : SpeechCommands Rec) (filesOrPath callback : Value) :
  isPredicting (final (load filesOrPath callback this)) = isPredicting this.
Proof.
  unfold load, invoke. destruct filesOrPath; try reflexivity. run_method.
  destruct (fst (Recognizer.ensureModelLoaded _)) as [u | e]; cbn; [| reflexivity].
  destruct (truthy callback); cbn; [| reflexivity].
  destruct (typeof callback =? "function")%string; reflexivity.
Qed.

Lemma save_isPredicting (this : SpeechCommands Rec) (callback : Value) :
  isPredicting (final (save saveBlob callback this)) = isPredicting this.
Proof.
  unfold save, bind, read, emit, write.
  destruct (model this) as [t |]; [| reflexivity].
  destruct (fst (Recognizer.save t)) as [data | e]; [| reflexivity].
  pose proof (saveHandler_state data callback
                (set_model (Some (snd (Recognizer.save t))) this)) as H.
  unfold final in *.
  destruct (saveHandler saveBlob data callback _) as [[o s] tr].
  cbn in *. subst s. reflexivity.
Qed.

(** The assignments to [isPredicting] in the source: the constructor sets it
    to [false]; [classification], [addExample], [load] and [save] do not
    assign it; [train] assigns [false] once its check of the example counts
    has passed. *)
Theorem isPredicting_only_cleared :
  (forall ready, isPredicting (final (constructor (Rec := Rec) ready)) = false)
  /\ (forall (this : SpeechCommands Rec),
        (forall opts, isPredicting (final (classification opts this)) = isPredicting this)
        /\ (forall l cb, isPredicting (final (addExample l cb this)) = isPredicting this)
        /\ (forall f cb, isPredicting (final (load f cb this)) = isPredicting this)
        /\ (forall cb, isPredicting (final (save saveBlob cb this)) = isPredicting this)
        /\ (forall p, isPredicting (final (train toFixed p this))
                      = if passes_check this then false else isPredicting this)).
Proof.
  split.
  - intros ready. apply constructor_fields.
  - intros this. repeat split; intros.
    + apply classification_isPredicting.
    + apply addExample_isPredicting.
    + apply load_isPredicting.
    + apply save_isPredicting.
    + apply train_isPredicting.
Qed.

(** ** classify: the results *)

Lemma Forall_insert_desc (P : Value * Q -> Prop) (c : Value * Q) (l : list (Value * Q)) :
  P c -> Forall P l -> Forall P (insert_desc c l).
Proof.
  intros Hc Hl. induction Hl as [| d l Hd Hl IH]; cbn.
  - constructor; [exact Hc | constructor].
  - destruct (Qle_bool (snd c) (snd d)).
    + constructor; assumption.
    + constructor; [exact Hc | constructor; assumption].
Qed.

Lemma insert_desc_sorted (c : Value * Q) (l : list (Value * Q)) :
  StronglySorted prob_ge l -> StronglySorted prob_ge (insert_desc c l).
Proof.
  intros Hs. induction Hs as [| d l Hs IH Hd]; cbn.
  - constructor; constructor.
  - destruct (Qle_bool (snd c) (snd d)) eqn:E.
    + constructor; [exact IH |].
      apply Forall_insert_desc; [| exact Hd].
      unfold prob_ge. apply Qle_bool_iff. exact E.
    + assert (Hlt : (snd d <= snd c)%Q).
      { destruct (Qlt_le_dec (snd d) (snd c)) as [Hlt | Hle].
        - apply Qlt_le_weak. exact Hlt.
        - apply Qle_bool_iff in Hle. rewrite Hle in E. discriminate. }
      constructor; [constructor; assumption |].
      constructor; [exact Hlt |].
      eapply Forall_impl; [| exact Hd].
      intros x Hx. unfold prob_ge in *.
      apply (Qle_trans _ (snd d)); [exact Hx | exact Hlt].
Qed.

Lemma sort_desc_sorted (l : list (Value * Q)) : StronglySorted prob_ge (sort_desc l).
Proof.
  induction l as [| c l IH]; cbn.
  - constructor.
  - apply insert_desc_sorted. exact IH.
Qed.

Lemma firstn_sorted {A} (rel : A -> A -> Prop) (n : nat) (l : list A) :
  StronglySorted rel l -> StronglySorted rel (firstn n l).
Proof.
  intros Hs. revert n. induction Hs as [| a l Hs IH Ha]; intros [| n]; cbn;
    try constructor.
  - apply IH.
  - rewrite <- (firstn_skipn n l) in Ha. apply Forall_app in Ha. apply Ha.
Qed.

Lemma map_class_sorted (l : list (Value * Q)) :
  StronglySorted prob_ge l ->
  StronglySorted conf_ge (map (fun c => mkClass (fst c) (snd c)) l).
Proof.
  intros Hs. induction Hs as [| a l Hs IH Ha]; cbn; constructor.
  - exact IH.
  - apply Forall_map. eapply Forall_impl; [| exact Ha].
    intros x Hx. exact Hx.
Qed.

Lemma topk_length (values : list Q) (topK : Z) (classes : list Value) :
  (List.length (getTopKClassesFromArray values topK classes)
   <= Z.to_nat (Z.min topK (Z.of_nat (List.length classes))))%nat.
Proof. unfold getTopKClassesFromArray. apply firstn_le_length. Qed.

Lemma onListenResult_scores
      (this : SpeechCommands Rec) (wl : list Value) (topk : Z) (cb : Value)
      (result : ListenResult) (values : list Q) :
  wordLabels this = Some wl ->
  typeof cb = "function" ->
  scores result = Some values ->
  onListenResult topk cb result this
  = (Returned RCallbackResult, this,
     [ECall cb [AVal VNull;
                AClasses (map (fun c => mkClass (fst c) (snd c))
                              (getTopKClassesFromArray values topk wl))]]).
Proof.
  intros Hw Hf Hs. unfold onListenResult, invoke. rewrite Hs. run_method.
  rewrite Hw, Hf. reflexivity.
Qed.

(** C7. In classifier mode with labels [wl], [classify] starts the listen loop
    with the class count K it was given when its first argument is a number,
    and with the number of labels otherwise.  Each result that carries scores
    is then delivered as [callback(null, classes)], where [classes] has at
    most min(K, |wl|) entries and is ordered by non-increasing confidence. *)
Theorem classify_topk_results
        (this later : SpeechCommands Rec) (t : Rec) (wl : list Value)
        (numOrCallback cb : Value) (result : ListenResult) (values : list Q) :
  is_classifier (usageType this) = true ->
  wordLabels this = Some wl ->
  model this = Some t ->
  wordLabels later = Some wl ->
  typeof (callback_of numOrCallback cb) = "function" ->
  scores result = Some values ->
  (typeof numOrCallback <> "number" ->
   topk_of numOrCallback wl = Z.of_nat (List.length wl))
  /\ (forall k, numOrCallback = VNum k -> topk_of numOrCallback wl = k)
  /\ In (EListen (topk_of numOrCallback wl) (callback_of numOrCallback cb) (options this))
        (trace (classify numOrCallback cb this))
  /\ exists classes,
      onListenResult (topk_of numOrCallback wl) (callback_of numOrCallback cb) result later
      = (Returned RCallbackResult, later,
         [ECall (callback_of numOrCallback cb) [AVal VNull; AClasses classes]])
      /\ (List.length classes
          <= Z.to_nat (Z.min (topk_of numOrCallback wl) (Z.of_nat (List.length wl))))%nat
      /\ (0 <= topk_of numOrCallback wl ->
          Z.of_nat (List.length classes)
          <= Z.min (topk_of numOrCallback wl) (Z.of_nat (List.length wl)))%Z
      /\ StronglySorted conf_ge classes.
Proof.
  intros Hu Hw Hm Hl Hf Hs.
  split; [| split; [| split]].
  - intros Hn. destruct numOrCallback; try reflexivity. exfalso. apply Hn. reflexivity.
  - intros k ->. reflexivity.
  - rewrite (classify_run this wl numOrCallback cb Hu Hw).
    destruct (classifyInternal_run this t (topk_of numOrCallback wl)
                                   (callback_of numOrCallback cb) Hm)
      as (o & rest & E & _).
    rewrite E. unfold trace. cbn [snd]. apply in_or_app. right. left. reflexivity.
  - eexists. split; [exact (onListenResult_scores later wl _ _ result values Hl Hf Hs) |].
    pose proof (topk_length values (topk_of numOrCallback wl) wl) as Hlen.
    split; [| split].
    + rewrite length_map. exact Hlen.
    + intros Hk. rewrite length_map. lia.
    + apply map_class_sorted. unfold getTopKClassesFromArray.
      apply firstn_sorted. apply sort_desc_sorted.
Qed.

(** ** Word labels after training *)

Lemma bind_returned {A B} (m : M Rec A) (k : A -> M Rec B)
      (this : SpeechCommands Rec) (b : B) :
  outcome (bind m k this) = Returned b ->
  exists a,
    outcome (m this) = Returned a
    /\ outcome (k a (final (m this))) = Returned b
    /\ final (bind m k this) = final (k a (final (m this))).
Proof.
  unfold bind, outcome, final.
  destruct (m this) as [[[a | e] s1] tr1]; cbn; [| discriminate].
  destruct (k a s1) as [[o s2] tr2] eqn:E. cbn. intros ->.
  exists a. rewrite E. repeat split.
Qed.

Lemma labels_stopped (L : Recognizer.Laws R) (t : Rec) :
  Recognizer.wordLabels (stopped t) = Recognizer.wordLabels t.
Proof.
  unfold stopped. destruct (Recognizer.isListening t); [| reflexivity].
  apply Recognizer.labels_stop.
Qed.

(** One successful [addExample]: the word joins the vocabulary of the model. *)
Lemma addExample_labels (L : Recognizer.Laws R)
      (this : SpeechCommands Rec) (t : Rec) (l cb : Value) (r : JsRet) :
  model this = Some t ->
  outcome (addExample l cb this) = Returned r ->
  exists t',
    model (final (addExample l cb this)) = Some t'
    /\ usageType (final (addExample l cb this)) = usageType this
    /\ forall x, In x (Recognizer.wordLabels t')
                 <-> x = label_of l \/ In x (Recognizer.wordLabels t).
Proof.
  intros Hm Ho.
  destruct (addExample_run this t l cb Hm) as (rest & _ & _ & Hf & Hout).
  rewrite Hout in Ho. rewrite Hf.
  destruct (Recognizer.collectExample (stopped t) (label_of l)) as [[[] | e] t'] eqn:E;
    cbn in Ho; [| discriminate].
  exists t'. cbn [snd]. split; [| split].
  - destruct (Recognizer.isListening t); reflexivity.
  - destruct (Recognizer.isListening t); reflexivity.
  - intros x. rewrite (Recognizer.labels_collect _ _ _ E x), (labels_stopped L).
    reflexivity.
Qed.

Lemma addExamples_labels (L : Recognizer.Laws R) (labels : list Value) (cb : Value) :
  forall (this : SpeechCommands Rec) (t : Rec) (r : JsRet),
    model this = Some t ->
    outcome (addExamples labels cb this) = Returned r ->
    exists t',
      model (final (addExamples labels cb this)) = Some t'
      /\ usageType (final (addExamples labels cb this)) = usageType this
      /\ forall x, In x (Recognizer.wordLabels t')
                   <-> In x (map label_of labels) \/ In x (Recognizer.wordLabels t).
Proof.
  induction labels as [| l labels IH]; intros this t r Hm Ho.
  - exists t. cbn. repeat split; try assumption; tauto.
  - cbn [addExamples] in *.
    destruct (bind_returned _ _ _ _ Ho) as (a & Ha & Hrest & Hfin).
    destruct (addExample_labels L this t l cb a Hm Ha) as (t1 & Hm1 & Hu1 & Hl1).
    destruct (IH _ t1 r Hm1 Hrest) as (t' & Hm' & Hu' & Hl').
    exists t'. rewrite Hfin. split; [exact Hm' | split].
    + rewrite Hu'. exact Hu1.
    + intros x. rewrite Hl', Hl1. cbn [map In].
      split; intros H; intuition auto.
Qed.

Lemma map_label_of (labels : list Value) :
  (forall l, In l labels -> typeof l = "string" \/ typeof l = "number") ->
  map label_of labels = labels.
Proof.
  intros H. induction labels as [| l labels IH]; cbn.
  - reflexivity.
  - rewrite IH by (intros x Hx; apply H; right; exact Hx).
    f_equal. unfold label_of.
    destruct (H l (or_introl eq_refl)) as [E | E]; rewrite E; reflexivity.
Qed.

(** A [train] that resolves in classifier mode took the labels of the model. *)
Lemma train_returned_labels
      (this : SpeechCommands Rec) (t : Rec) (onProgress : Value) (r : JsRet) :
  model this = Some t ->
  is_classifier (usageType this) = true ->
  outcome (train toFixed onProgress this) = Returned r ->
  wordLabels (final (train toFixed onProgress this))
  = Some (Recognizer.wordLabels t).
Proof.
  intros Hm Hu Ho.
  destruct (no_examples (Recognizer.countExamples t)) eqn:Hc.
  - rewrite (train_check_fails this t onProgress Hm Hc) in Ho. discriminate.
  - rewrite (train_classifier_run this t onProgress Hm Hc Hu). reflexivity.
Qed.

Lemma classification_returned (L : Recognizer.Laws R)
      (this : SpeechCommands Rec) (opts : Value) (r : JsRet) :
  outcome (classification opts this) = Returned r ->
  exists t,
    model (final (classification opts this)) = Some t
    /\ usageType (final (classification opts this)) = Some "classifier"
    /\ Recognizer.wordLabels t = [].
Proof.
  intros Ho. destruct (speechCommandsModel this) as [b |] eqn:Hb.
  - rewrite (classification_run this b opts Hb) in *.
    destruct (Recognizer.createTransfer b "transfer") as [[t | e] b'] eqn:E;
      cbn in *; [| discriminate].
    exists t. repeat split. eapply Recognizer.labels_fresh. exact E.
  - revert Ho. unfold classification. run_method. rewrite Hb. discriminate.
Qed.

(** C8. After [classification()], a sequence of [addExample] calls that all
    succeed and a [train] that resolves, [wordLabels] holds the vocabulary of
    the model: a duplicate-free list whose elements are exactly the labels
    that were added (their order is the recogniser's).  More generally a
    [train] that resolves in classifier mode sets [wordLabels] to what
    [model.wordLabels()] answers. *)
Theorem wordLabels_after_training (L : Recognizer.Laws R) :
  (forall (this : SpeechCommands Rec) opts labels cb onProgress r,
      outcome (collectAndTrain toFixed opts labels cb onProgress this) = Returned r ->
      exists wl,
        wordLabels (final (collectAndTrain toFixed opts labels cb onProgress this))
        = Some wl
        /\ NoDup wl
        /\ (forall x, In x wl <-> In x (map label_of labels))
        /\ ((forall l, In l labels -> typeof l = "string" \/ typeof l = "number") ->
            forall x, In x wl <-> In x labels))
  /\ (forall (this : SpeechCommands Rec) t onProgress r,
        model this = Some t ->
        is_classifier (usageType this) = true ->
        outcome (train toFixed onProgress this) = Returned r ->
        wordLabels (final (train toFixed onProgress this))
        = Some (Recognizer.wordLabels t)).
Proof.
  split.
  - intros this opts labels cb onProgress r Ho. unfold collectAndTrain in *.
    destruct (bind_returned _ _ _ _ Ho) as (a & Ha & Ho1 & Hf1).
    destruct (classification_returned L this opts a Ha) as (t0 & Hm0 & Hu0 & Hl0).
    destruct (bind_returned _ _ _ _ Ho1) as (a1 & Ha1 & Ho2 & Hf2).
    destruct (addExamples_labels L labels cb _ t0 a1 Hm0 Ha1) as (t1 & Hm1 & Hu1 & Hl1).
    rewrite Hf1, Hf2.
    exists (Recognizer.wordLabels t1).
    assert (Hset : forall x, In x (Recognizer.wordLabels t1)
                             <-> In x (map label_of labels)).
    { intros x. rewrite Hl1, Hl0. cbn. tauto. }
    split; [| split; [| split]].
    + apply (train_returned_labels _ t1 onProgress r Hm1); [| exact Ho2].
      rewrite Hu1, Hu0. reflexivity.
    + apply Recognizer.labels_nodup.
    + exact Hset.
    + intros Hty x. rewrite Hset, (map_label_of labels Hty). reflexivity.
  - intros this t onProgress r. apply train_returned_labels.
Qed.

End Properties.

(** * The small recogniser honours the contract *)

Lemma ref_labels_collect (t t' : RefRecognizer.state) (l : Value) :
  RefRecognizer.r_collectExample t l = (Ok tt, t') ->
  forall x, In x (map VStr (RefRecognizer.vocabulary t'))
            <-> x = l \/ In x (map VStr (RefRecognizer.vocabulary t)).
Proof.
  unfold RefRecognizer.r_collectExample, RefRecognizer.vocabulary.
  destruct l as [| | | | s | |]; try discriminate.
  destruct (s =? "")%string; [discriminate |].
  intros H x. injection H as <-. cbn [RefRecognizer.examples].
  rewrite !in_map_iff. split.
  - intros (w & <- & Hw). apply nodup_In, in_app_iff in Hw.
    destruct Hw as [Hw | [-> | []]].
    + right. exists w. split; [reflexivity |]. apply nodup_In. exact Hw.
    + left. reflexivity.
  - intros [-> | (w & <- & Hw)].
    + exists s. split; [reflexivity |]. apply nodup_In, in_app_iff.
      right. left. reflexivity.
    + exists w. split; [reflexivity |]. apply nodup_In, in_app_iff.
      left. apply nodup_In in Hw. exact Hw.
Qed.

Lemma ref_labels_nodup (t : RefRecognizer.state) :
  NoDup (map VStr (RefRecognizer.vocabulary t)).
Proof.
  apply Injective_map_NoDup.
  - intros a b H. injection H as ->. reflexivity.
  - apply NoDup_nodup.
Qed.

Lemma ref_laws : Recognizer.Laws RefRecognizer.ops.
Proof.
  constructor.
  - intros t. reflexivity.
  - intros t. reflexivity.
  - intros b b' t name H. cbn in H. injection H as <- _. reflexivity.
  - intros t t' l H. exact (ref_labels_collect t t' l H).
  - intros t. exact (ref_labels_nodup t).
Qed.

Lemma ref_honours_epochs (t : RefRecognizer.state) : Recognizer.honours_epochs t.
Proof.
  intros epochs. exists (map RefRecognizer.epoch_logs (seq 0 epochs)).
  split; [| reflexivity].
  rewrite length_map, length_seq. reflexivity.
Qed.

(** * The properties on concrete instances *)

(** C1 at an instance configured as a classifier, before any example. *)
Lemma train_without_examples_witness :
  model Example.configured = Some (RefRecognizer.mkState false [] true)
  /\ no_examples (Recognizer.countExamples (RefRecognizer.mkState false [] true)) = true
  /\ outcome (train RefRecognizer.r_toFixed Example.onProgress Example.configured)
     = Threw (Error "Add some examples before training!")
  /\ calls (trace (train RefRecognizer.r_toFixed Example.onProgress Example.configured))
     = [].
Proof.
  split; [reflexivity | split; [reflexivity |]].
  pose proof (train_without_examples (R := RefRecognizer.ops)
                RefRecognizer.r_toFixed Example.configured
                (RefRecognizer.mkState false [] true) Example.onProgress
                eq_refl eq_refl) as H.
  split; [exact (proj1 H) | exact (proj1 (proj2 (proj2 H)))].
Defined.

(** C2. The flag is documented as the "Boolean value to check if the model is
    predicting", and the code does not keep it so: on an instance that was
    configured, given examples and trained, [classify(2, cb)] resolves with
    the recogniser streaming, and [isPredicting], which agreed with the
    streaming state before the call, is still [false] after it. *)
Lemma isPredicting_not_streaming :
  outcome (classify (VNum 2) Example.cb Example.trained) = Returned RUndefined
  /\ flag_tracks_stream Example.trained
  /\ model Example.streaming = Some (RefRecognizer.mkState true ["yes"; "no"; "yes"] true)
  /\ isPredicting Example.streaming = false
  /\ ~ flag_tracks_stream Example.streaming.
Proof.
  repeat split. intros H. vm_compute in H. discriminate H.
Qed.

(** C3 while a classification is streaming. *)
Lemma stop_before_start_witness :
  Recognizer.Laws RefRecognizer.ops
  /\ (forall l cb,
         (List.length (starts (trace (addExample l cb Example.streaming))) <= 1)%nat)
  /\ trace (addExample (VStr "go") Example.cb Example.streaming)
     = [EIsListening true; EStopListening; ECollectExample (VStr "go"); EAwait;
        ECall Example.cb [AVal VUndefined; AThis]].
Proof.
  split; [exact ref_laws | split].
  - exact (proj1 (stop_before_start (R := RefRecognizer.ops) ref_laws Example.streaming)).
  - reflexivity.
Defined.

(** C4 on the collected examples. *)
Lemma train_reports_every_epoch_witness :
  model Example.collected = Some (RefRecognizer.mkState false ["yes"; "no"; "yes"] true)
  /\ is_classifier (usageType Example.collected) = true
  /\ typeof Example.onProgress = "function"
  /\ exists logs,
      List.length logs = 25%nat
      /\ calls (trace (train RefRecognizer.r_toFixed Example.onProgress Example.collected))
         = map (progress_call RefRecognizer.r_toFixed Example.onProgress) logs
           ++ [done_call Example.onProgress].
Proof.
  split; [reflexivity | split; [reflexivity | split; [reflexivity |]]].
  destruct (train_reports_every_epoch (R := RefRecognizer.ops)
              RefRecognizer.r_toFixed Example.collected
              (RefRecognizer.mkState false ["yes"; "no"; "yes"] true)
              Example.onProgress eq_refl eq_refl eq_refl eq_refl
              (ref_honours_epochs _))
    as (logs & Hlen & _ & _ & _ & Hcalls & _).
  exists logs. split; assumption.
Defined.

(** C5 on a fresh instance. *)
Lemma save_requires_model_witness :
  model Example.fresh = None
  /\ save RefRecognizer.r_saveBlob Example.cb Example.fresh
     = (Threw (Error "No model found."), Example.fresh, []).
Proof.
  split; [reflexivity |].
  exact (proj1 (proj2 (save_requires_model (R := RefRecognizer.ops) RefRecognizer.r_saveBlob
                                           Example.fresh Example.cb)) eq_refl).
Defined.

(** C6, as the spec words it, fails on the text of the message: the error of
    a fresh instance does not contain 'not set to be a classifier'. *)
Lemma classify_message_differs :
  ~ (exists msg,
        outcome (classify VUndefined Example.cb Example.fresh) = Threw (Error msg)
        /\ contains "not set to be a classifier" msg = true).
Proof.
  intros (msg & H & C). vm_compute in H. injection H as <-.
  vm_compute in C. discriminate C.
Qed.

Lemma classify_requires_classifier_witness :
  is_classifier (usageType Example.fresh) = false
  /\ outcome (classify (VNum 2) Example.cb Example.fresh)
     = Threw (Error "SpeechCommands Feature Extraction has not been set to be a classifier.")
  /\ trace (classify (VNum 2) Example.cb Example.fresh) = [].
Proof.
  split; [reflexivity |].
  pose proof (classify_requires_classifier (R := RefRecognizer.ops)
                Example.fresh (VNum 2) Example.cb eq_refl) as H.
  split; [exact (proj1 H) | exact (proj2 (proj2 H))].
Defined.

(** C7 on the trained instance, asking for one class. *)
Lemma classify_topk_results_witness :
  is_classifier (usageType Example.trained) = true
  /\ wordLabels Example.trained = Some [VStr "no"; VStr "yes"]
  /\ In (EListen 1 Example.cb []) (trace (classify (VNum 1) Example.cb Example.trained))
  /\ exists classes,
      onListenResult 1 Example.cb (mkResult (Some [1 # 4; 3 # 4]) "[object Object]")
                     Example.streaming
      = (Returned RCallbackResult, Example.streaming,
         [ECall Example.cb [AVal VNull; AClasses classes]])
      /\ (List.length classes <= 1)%nat
      /\ StronglySorted conf_ge classes.
Proof.
  split; [reflexivity | split; [reflexivity |]].
  destruct (classify_topk_results (R := RefRecognizer.ops)
              Example.trained Example.streaming
              (RefRecognizer.mkState false ["yes"; "no"; "yes"] true)
              [VStr "no"; VStr "yes"] (VNum 1) Example.cb
              (mkResult (Some [1 # 4; 3 # 4]) "[object Object]") [1 # 4; 3 # 4]
              eq_refl eq_refl eq_refl eq_refl eq_refl eq_refl)
    as (_ & _ & Hlisten & classes & Hrun & Hlen & _ & Hsorted).
  split; [exact Hlisten |].
  exists classes. split; [exact Hrun | split; [exact Hlen | exact Hsorted]].
Defined.

(** C8 on the labels yes, no, yes. *)
Lemma wordLabels_after_training_witness :
  Recognizer.Laws RefRecognizer.ops
  /\ outcome (collectAndTrain RefRecognizer.r_toFixed VUndefined
                              [VStr "yes"; VStr "no"; VStr "yes"] VUndefined
                              Example.onProgress Example.fresh)
     = Returned RUndefined
  /\ exists wl,
      wordLabels (final (collectAndTrain RefRecognizer.r_toFixed VUndefined
                                         [VStr "yes"; VStr "no"; VStr "yes"] VUndefined
                                         Example.onProgress Example.fresh))
      = Some wl
      /\ NoDup wl
      /\ forall x, In x wl <-> In x [VStr "yes"; VStr "no"; VStr "yes"].
Proof.
  split; [exact ref_laws | split; [reflexivity |]].
  destruct (proj1 (wordLabels_after_training (R := RefRecognizer.ops)
                                             RefRecognizer.r_toFixed ref_laws)
                  Example.fresh VUndefined [VStr "yes"; VStr "no"; VStr "yes"]
                  VUndefined Example.onProgress RUndefined eq_refl)
    as (wl & Hwl & Hnodup & Hset & _).
  exists wl. split; [exact Hwl | split; [exact Hnodup | exact Hset]].
Defined.

(** C9 on a fresh instance, with one option. *)
Lemma classification_resets_witness :
  speechCommandsModel Example.fresh = Some (RefRecognizer.mkState false [] true)
  /\ Recognizer.createTransfer (RefRecognizer.mkState false [] true) "transfer"
     = (Ok (RefRecognizer.mkState false [] true), RefRecognizer.mkState false [] true)
  /\ outcome (classification (VObj [("overlapFactor", SNum 1)]) Example.fresh)
     = Returned RThis
  /\ model (final (classification (VObj [("overlapFactor", SNum 1)]) Example.fresh))
     = Some (RefRecognizer.mkState false [] true)
  /\ usageType (final (classification (VObj [("overlapFactor", SNum 1)]) Example.fresh))
     = Some "classifier".
Proof.
  split; [reflexivity | split; [reflexivity |]].
  destruct (classification_resets (R := RefRecognizer.ops)
              Example.fresh (RefRecognizer.mkState false [] true)
              (RefRecognizer.mkState false [] true) (RefRecognizer.mkState false [] true)
              (VObj [("overlapFactor", SNum 1)]) eq_refl eq_refl)
    as (Ho & _ & Hu & Hm & _).
  split; [exact Ho | split; [exact Hm | exact Hu]].
Defined.

(** C10 on an instance configured as a classifier and not yet trained. *)
Lemma classify_before_labels_witness :
  is_classifier (usageType Example.configured) = true
  /\ wordLabels Example.configured = None
  /\ (exists msg,
         outcome (classify (VNum 2) Example.cb Example.configured)
         = Threw (TypeError msg))
  /\ trace (classify (VNum 2) Example.cb Example.configured) = [].
Proof.
  split; [reflexivity | split; [reflexivity |]].
  pose proof (classify_before_labels (R := RefRecognizer.ops)
                Example.configured (VNum 2) Example.cb eq_refl eq_refl) as H.
  split; [exact (proj1 H) | exact (proj1 (proj2 (proj2 H)))].
Defined.

(** * Further properties of the lifecycle *)

Section Lifecycle.

Context {Rec : Type} {R : Recognizer.Ops Rec}.
Variable toFixed : Q -> nat -> string.
Variable saveBlob : string -> string -> string -> Res unit.

Ltac run_body :=
  unfold bind, this_model, emit, write, read, throw, ret, settle; cbn.

(** ** load *)

Lemma load_path_run (this : SpeechCommands Rec) (path : string) (callback : Value) :
  load (VStr path) callback this
  = match fst (Recognizer.ensureModelLoaded (loaded_from path)) with
    | Fail e =>
        (Threw e,
         set_model (Some (snd (Recognizer.ensureModelLoaded (loaded_from path)))) this,
         [ECreate (Some (modelURL path)) (Some (metadataURL path));
          EEnsureModelLoaded; EAwait])
    | Ok _ =>
        (if truthy callback
         then if (typeof callback =? "function")%string
              then Returned RModel
              else Threw (TypeError "is not a function")
         else Returned RModel,
         set_wordLabels
           (Some (Recognizer.wordLabels
                    (snd (Recognizer.ensureModelLoaded (loaded_from path)))))
           (set_model (Some (snd (Recognizer.ensureModelLoaded (loaded_from path))))
                      this),
         [ECreate (Some (modelURL path)) (Some (metadataURL path));
          EEnsureModelLoaded; EAwait; EWordLabels]
           ++ (if truthy callback
               then if (typeof callback =? "function")%string
                    then [ECall callback []] else []
               else []))
    end.
Proof.
  unfold load, invoke, loaded_from, modelURL, metadataURL. run_body.
  destruct (fst (Recognizer.ensureModelLoaded _)) as [u | e]; cbn; [| reflexivity].
  destruct (truthy callback); cbn; [| reflexivity].
  destruct (typeof callback =? "function")%string; reflexivity.
Qed.

Lemma load_other_run (this : SpeechCommands Rec) (filesOrPath callback : Value) :
  (forall path, filesOrPath <> VStr path) ->
  load filesOrPath callback this = (Returned RModel, this, []).
Proof.
  intros H. destruct filesOrPath; try reflexivity. exfalso. apply (H s). reflexivity.
Qed.

(** X1. [load(path)] whose model loads: [model] becomes the recogniser made
    from [path/model.json] and [path/metadata.json], [wordLabels] its labels;
    the usage mode and the options are untouched; the callback, if any, is
    called once, without arguments, after everything else. *)
Theorem load_replaces_model
        (this : SpeechCommands Rec) (path : string) (callback : Value) (t' : Rec) :
  Recognizer.ensureModelLoaded (loaded_from path) = (Ok tt, t') ->
  (truthy callback = true -> typeof callback = "function") ->
  outcome (load (VStr path) callback this) = Returned RModel
  /\ model (final (load (VStr path) callback this)) = Some t'
  /\ wordLabels (final (load (VStr path) callback this))
     = Some (Recognizer.wordLabels t')
  /\ usageType (final (load (VStr path) callback this)) = usageType this
  /\ options (final (load (VStr path) callback this)) = options this
  /\ trace (load (VStr path) callback this)
     = [ECreate (Some (modelURL path)) (Some (metadataURL path));
        EEnsureModelLoaded; EAwait; EWordLabels]
         ++ (if truthy callback then [ECall callback []] else []).
Proof.
  intros Hload Hcb. rewrite load_path_run, Hload. cbn [fst snd].
  destruct (truthy callback).
  - rewrite (Hcb eq_refl). cbn. repeat split.
  - cbn. repeat split.
Qed.

(** X2. [load(path)] whose model does not load rejects with the error of the
    recogniser.  By then [model] has already been replaced, so the previous
    model is gone; [wordLabels] is left as it was and no callback is called. *)
Theorem load_failure_replaces_model
        (this : SpeechCommands Rec) (path : string) (callback : Value)
        (e : Exn) (t' : Rec) :
  Recognizer.ensureModelLoaded (loaded_from path) = (Fail e, t') ->
  outcome (load (VStr path) callback this) = Threw e
  /\ model (final (load (VStr path) callback this)) = Some t'
  /\ wordLabels (final (load (VStr path) callback this)) = wordLabels this
  /\ calls (trace (load (VStr path) callback this)) = [].
Proof.
  intros Hload. rewrite load_path_run, Hload. cbn. repeat split.
Qed.

(** X3. [load] calls nothing but its own callback, without arguments, and only
    when its first argument is a string and the model has loaded; with any
    other first argument it does nothing at all. *)
Theorem load_calls_back_only_when_loaded
        (this : SpeechCommands Rec) (filesOrPath callback : Value) :
  ((forall path, filesOrPath <> VStr path) ->
   load filesOrPath callback this = (Returned RModel, this, []))
  /\ (forall f args,
        In (ECall f args) (trace (load filesOrPath callback this)) ->
        f = callback /\ args = []
        /\ exists path u,
            filesOrPath = VStr path
            /\ fst (Recognizer.ensureModelLoaded (loaded_from path)) = Ok u).
Proof.
  split; [apply load_other_run |].
  intros f args Hin.
  destruct filesOrPath as [| | | | path | |];
    try (rewrite load_other_run in Hin by (intros p; discriminate); destruct Hin).
  rewrite load_path_run in Hin.
  destruct (fst (Recognizer.ensureModelLoaded (loaded_from path))) as [u | e] eqn:E.
  - cbn in Hin.
    destruct Hin as [H | [H | [H | [H | Hin]]]]; try discriminate H.
    destruct (truthy callback); [| destruct Hin].
    destruct (typeof callback =? "function")%string; [| destruct Hin].
    destruct Hin as [H | []]. injection H as <- <-.
    repeat split. exists path, u. split; [reflexivity | exact E].
  - cbn in Hin. destruct Hin as [H | [H | [H | []]]]; discriminate H.
Qed.

Lemma load_usageType (this : SpeechCommands Rec) (filesOrPath callback : Value) :
  usageType (final (load filesOrPath callback this)) = usageType this.
Proof.
  destruct filesOrPath as [| | | | path | |]; try reflexivity.
  rewrite load_path_run.
  destruct (fst (Recognizer.ensureModelLoaded (loaded_from path))); reflexivity.
Qed.

(** X4. [load] never sets the usage mode: on an instance that is not in
    classifier mode, [classify] after a [load] still fails with the error of
    the mode guard, whatever was loaded. *)
Theorem load_keeps_mode
        (this : SpeechCommands Rec) (filesOrPath callback numOrCallback cb : Value) :
  is_classifier (usageType this) = false ->
  outcome (classify numOrCallback cb (final (load filesOrPath callback this)))
  = Threw (Error "SpeechCommands Feature Extraction has not been set to be a classifier.")
  /\ trace (classify numOrCallback cb (final (load filesOrPath callback this))) = [].
Proof.
  intros Hu. rewrite classify_other_mode; [split; reflexivity |].
  rewrite load_usageType. exact Hu.
Qed.

(** ** train *)

(** X5. With examples in the store but outside classifier mode, [train]
    resolves without training: it only asks for the counts, never calls
    [model.train] nor [onProgress], and leaves [wordLabels] and [model] as
    they were. *)
Theorem train_outside_classifier_mode
        (this : SpeechCommands Rec) (t : Rec) (onProgress : Value) :
  model this = Some t ->
  no_examples (Recognizer.countExamples t) = false ->
  is_classifier (usageType this) = false ->
  outcome (train toFixed onProgress this) = Returned RUndefined
  /\ trace (train toFixed onProgress this) = [ECountExamples]
  /\ wordLabels (final (train toFixed onProgress this)) = wordLabels this
  /\ model (final (train toFixed onProgress this)) = model this
  /\ examplesCount (final (train toFixed onProgress this))
     = Some (Recognizer.countExamples t).
Proof.
  intros Hm Hc Hu. rewrite (train_other_mode_run toFixed this t onProgress Hm Hc Hu).
  repeat split.
Qed.

(** X6. When [model.train] rejects, [train] rejects with the same error, after
    the callbacks the recogniser fired; [wordLabels] has already been taken
    from the model and [isPredicting] cleared. *)
Theorem train_failure_keeps_labels
        (this : SpeechCommands Rec) (t : Rec) (onProgress : Value) (e : Exn) :
  model this = Some t ->
  no_examples (Recognizer.countExamples t) = false ->
  is_classifier (usageType this) = true ->
  typeof onProgress = "function" ->
  snd (fst (Recognizer.train t 25)) = Fail e ->
  outcome (train toFixed onProgress this) = Threw e
  /\ wordLabels (final (train toFixed onProgress this))
     = Some (Recognizer.wordLabels t)
  /\ isPredicting (final (train toFixed onProgress this)) = false
  /\ model (final (train toFixed onProgress this))
     = Some (snd (Recognizer.train t 25))
  /\ trace (train toFixed onProgress this)
     = [ECountExamples; EWordLabels; ETrain 25; EAwait]
         ++ flat_map (signal_events toFixed onProgress)
                     (fst (fst (Recognizer.train t 25))).
Proof.
  intros Hm Hc Hu Hf He.
  rewrite (train_classifier_run toFixed this t onProgress Hm Hc Hu).
  rewrite (fired_function toFixed onProgress _ Hf), He. repeat split.
Qed.

(** ** Before and after classification *)

Lemma constructor_base (ready : Value) :
  speechCommandsModel (final (constructor (Rec := Rec) ready))
  = Some (snd (Recognizer.ensureModelLoaded (Recognizer.create None None))).
Proof.
  unfold constructor, callCallback, loadModel. run_body.
  destruct (fst (Recognizer.ensureModelLoaded (Recognizer.create None None)));
    cbn; destruct (truthy ready); reflexivity.
Qed.

(** X7. On a freshly constructed instance, whether or not the base model has
    loaded, [train] and [addExampleInternal] fail on the null [model] with a
    [TypeError]: nothing is called and no field changes. *)
Theorem fresh_instance_has_no_model (ready onProgress lbl : Value) :
  train toFixed onProgress (final (constructor (Rec := Rec) ready))
  = (Threw (TypeError "Cannot read properties of null"),
     final (constructor ready), [])
  /\ addExampleInternal lbl (final (constructor (Rec := Rec) ready))
     = (Threw (TypeError "Cannot read properties of null"),
        final (constructor ready), []).
Proof.
  split.
  - apply train_no_model. apply constructor_fields.
  - apply addExampleInternal_no_model. apply constructor_fields.
Qed.

(** X8. [classification] right after construction always reaches
    [createTransfer('transfer')] on the base model, whether or not that model
    has loaded, and has set the usage mode by then. *)
Theorem classification_after_construction (ready opts : Value) :
  trace (classification opts (final (constructor (Rec := Rec) ready)))
  = [ECreateTransfer "transfer"]
  /\ usageType (final (classification opts (final (constructor (Rec := Rec) ready))))
     = Some "classifier".
Proof.
  rewrite (classification_run _ _ opts (constructor_base ready)).
  destruct (fst (Recognizer.createTransfer _ "transfer")); split; reflexivity.
Qed.

(** X9. [classification] is not all-or-nothing: when [createTransfer] throws,
    the error goes to the caller with the usage mode already set to
    'classifier', while [model], [options] and [wordLabels] are as before. *)
Theorem classification_not_atomic
        (this : SpeechCommands Rec) (b b' : Rec) (opts : Value) (e : Exn) :
  speechCommandsModel this = Some b ->
  Recognizer.createTransfer b "transfer" = (Fail e, b') ->
  outcome (classification opts this) = Threw e
  /\ usageType (final (classification opts this)) = Some "classifier"
  /\ model (final (classification opts this)) = model this
  /\ options (final (classification opts this)) = options this
  /\ wordLabels (final (classification opts this)) = wordLabels this.
Proof.
  intros Hb Hc. rewrite (classification_run this b opts Hb), Hc. repeat split.
Qed.

(** X10. [classification] replaces the model and keeps [wordLabels]: on an
    instance that already has labels, [classify] right after a new
    [classification] gets past both of its guards and starts the listen loop
    on the new model, with the old labels as its default class count; it
    resolves whenever that [listen] does. *)
Theorem classification_keeps_labels
        (this : SpeechCommands Rec) (b b' t : Rec) (wl : list Value)
        (opts numOrCallback cb : Value) :
  speechCommandsModel this = Some b ->
  Recognizer.createTransfer b "transfer" = (Ok t, b') ->
  wordLabels this = Some wl ->
  wordLabels (final (classification opts this)) = Some wl
  /\ (exists rest,
        trace (classify numOrCallback cb (final (classification opts this)))
        = listening_check t
            ++ EListen (topk_of numOrCallback wl) (callback_of numOrCallback cb)
                       (options (final (classification opts this)))
            :: rest)
  /\ (forall u,
        fst (Recognizer.listen (stopped t) (options (final (classification opts this))))
        = Ok u ->
        outcome (classify numOrCallback cb (final (classification opts this)))
        = Returned RUndefined).
Proof.
  intros Hb Hc Hw. rewrite (classification_run this b opts Hb), Hc. cbn [fst snd final].
  split; [exact Hw |].
  match goal with |- context [classify _ _ ?s] => set (after := s) end.
  rewrite (classify_run after wl numOrCallback cb eq_refl Hw).
  destruct (classifyInternal_run after t (topk_of numOrCallback wl)
                                 (callback_of numOrCallback cb) eq_refl)
    as (o & rest & E & _ & Hok).
  rewrite E. split.
  - exists rest. reflexivity.
  - intros u Hu. destruct (Hok u Hu) as (-> & _). reflexivity.
Qed.

(** X11. The options pile up over successive [classification] calls: after
    two calls with objects, a key reads as the second object has it, else as
    the first has it, else as it was stored before. *)
Theorem options_accumulate
        (this : SpeechCommands Rec) (b b1 b2 t1 t2 : Rec)
        (first second : list (string * Scalar)) (k : string) :
  speechCommandsModel this = Some b ->
  Recognizer.createTransfer b "transfer" = (Ok t1, b1) ->
  Recognizer.createTransfer b1 "transfer" = (Ok t2, b2) ->
  lookup k (options (final (classification (VObj second)
                                           (final (classification (VObj first) this)))))
  = match lookup k (rev second) with
    | Some v => Some v
    | None => match lookup k (rev first) with
              | Some v => Some v
              | None => lookup k (options this)
              end
    end.
Proof.
  intros Hb H1 H2.
  rewrite (classification_run this b (VObj first) Hb), H1. cbn [fst snd final].
  match goal with |- context [classification _ ?s] => set (mid := s) end.
  rewrite (classification_run mid b1 (VObj second) eq_refl), H2.
  subst mid. cbn [fst snd final options typeof]. rewrite !String.eqb_refl.
  rewrite !lookup_assign. reflexivity.
Qed.

(** ** addExample *)

(** X12. When [collectExample] rejects, [addExample] rejects with the same
    error; the listening check and the stop have been made all the same, and
    [model] is the recogniser as the failed capture left it. *)
Theorem addExample_failure
        (this : SpeechCommands Rec) (t : Rec) (l cb : Value) (e : Exn) :
  model this = Some t ->
  fst (Recognizer.collectExample (stopped t) (label_of l)) = Fail e ->
  outcome (addExample l cb this) = Threw e
  /\ model (final (addExample l cb this))
     = Some (snd (Recognizer.collectExample (stopped t) (label_of l)))
  /\ exists rest,
      trace (addExample l cb this)
      = listening_check t ++ ECollectExample (label_of l) :: rest.
Proof.
  intros Hm He.
  destruct (addExample_run this t l cb Hm) as (rest & Ht & _ & Hf & Ho).
  rewrite Ho, He, Hf, Ht. split; [reflexivity | split].
  - destruct (Recognizer.isListening t); reflexivity.
  - exists rest. reflexivity.
Qed.

(** X13. What [addExample] hands to [collectExample] is its first argument
    when that is a string or a number, and [undefined] otherwise (a callback
    in first position, or anything else). *)
Theorem addExample_label
        (this : SpeechCommands Rec) (l cb x : Value) :
  In (ECollectExample x) (trace (addExample l cb this)) ->
  (x = l /\ (typeof l = "string" \/ typeof l = "number"))
  \/ (x = VUndefined /\ typeof l <> "string" /\ typeof l <> "number").
Proof.
  intros Hin.
  assert (Hx : x = label_of l).
  { destruct (model this) as [t |] eqn:Hm.
    - destruct (addExample_run this t l cb Hm) as (rest & Ht & Hr & _).
      rewrite Ht in Hin. apply in_app_or in Hin. destruct Hin as [Hin | [Hin | Hin]].
      + unfold listening_check in Hin.
        destruct (Recognizer.isListening t); cbn in Hin;
          repeat (destruct Hin as [Hin | Hin]; [discriminate Hin |]); destruct Hin.
      + injection Hin as <-. reflexivity.
      + assert (H : In (ECollectExample x) (starts rest)).
        { apply filter_In. split; [exact Hin | reflexivity]. }
        rewrite Hr in H. destruct H.
    - assert (H : In (ECollectExample x) (starts (trace (addExample l cb this)))).
      { apply filter_In. split; [exact Hin | reflexivity]. }
      rewrite (proj1 (addExample_no_model this l cb Hm)) in H. destruct H. }
  subst x. unfold label_of. destruct l; cbn; auto;
    right; (split; [reflexivity | split; discriminate]).
Qed.

(** ** classify and the listen callback *)

Lemma callback_of_none (numOrCallback cb : Value) :
  typeof cb <> "function" ->
  typeof numOrCallback <> "function" ->
  callback_of numOrCallback cb = VUndefined.
Proof.
  intros Hc Hn. unfold callback_of.
  destruct cb; cbn; try (exfalso; apply Hc; reflexivity);
    destruct numOrCallback; cbn; try reflexivity;
    exfalso; apply Hn; reflexivity.
Qed.

Lemma onListenResult_no_callback
      (this : SpeechCommands Rec) (topk : Z) (cb : Value) (result : ListenResult) :
  typeof cb <> "function" ->
  exists msg,
    onListenResult topk cb result this = (Threw (TypeError msg), this, []).
Proof.
  intros Hc. unfold onListenResult, invoke.
  assert (E : (typeof cb =? "function")%string = false).
  { apply String.eqb_neq. exact Hc. }
  rewrite E. destruct (scores result) as [values |]; run_body.
  - destruct (wordLabels this) as [wl |]; cbn; eexists; reflexivity.
  - eexists. reflexivity.
Qed.

(** X14. [classify] called without any callback (a number or nothing first,
    no function second) starts the listen loop all the same, with an
    undefined callback; every result that then arrives raises a [TypeError]
    inside the listen callback and reaches nobody. *)
Theorem classify_without_callback
        (this : SpeechCommands Rec) (t : Rec) (wl : list Value)
        (numOrCallback cb : Value) :
  is_classifier (usageType this) = true ->
  wordLabels this = Some wl ->
  model this = Some t ->
  typeof cb <> "function" ->
  typeof numOrCallback <> "function" ->
  (exists rest,
      trace (classify numOrCallback cb this)
      = listening_check t
          ++ EListen (topk_of numOrCallback wl) VUndefined (options this) :: rest)
  /\ (forall (later : SpeechCommands Rec) result,
        exists msg,
          onListenResult (topk_of numOrCallback wl) VUndefined result later
          = (Threw (TypeError msg), later, [])).
Proof.
  intros Hu Hw Hm Hc Hn. split.
  - rewrite (classify_run this wl numOrCallback cb Hu Hw).
    rewrite (callback_of_none numOrCallback cb Hc Hn).
    destruct (classifyInternal_run this t (topk_of numOrCallback wl) VUndefined Hm)
      as (o & rest & E & _).
    exists rest. rewrite E. reflexivity.
  - intros later result. apply onListenResult_no_callback. discriminate.
Qed.

Lemma classifyInternal_failure_run
      (this : SpeechCommands Rec) (t : Rec) (topk : Z) (cb : Value) (e : Exn) :
  model this = Some t ->
  fst (Recognizer.listen (stopped t) (options this)) = Fail e ->
  classifyInternal topk cb this
  = (if (typeof cb =? "function")%string
     then Returned RCallbackResult else Threw (TypeError "is not a function"),
     set_model (Some (snd (Recognizer.listen (stopped t) (options this))))
               (if Recognizer.isListening t
                then set_model (Some (Recognizer.stopListening t)) this else this),
     listening_check t
       ++ EListen topk cb (options this)
       :: (if (typeof cb =? "function")%string
           then [ECall cb [AVal (VStr ("ERROR: " ++ message e))]] else [])).
Proof.
  intros Hm. unfold classifyInternal, stopped, listening_check, invoke. run_body.
  rewrite Hm. cbn.
  destruct (Recognizer.isListening t); cbn; [| rewrite Hm]; intros He; rewrite He;
    cbn; destruct (typeof cb =? "function")%string; reflexivity.
Qed.

(** X15. When [model.listen] rejects, [classify] does not reject as long as
    it has a callback: the callback is called once with the single argument
    'ERROR: ' followed by the message of the error.  Without a callback the
    call rejects with a [TypeError] and nobody is told of the original
    error. *)
Theorem classify_listen_failure
        (this : SpeechCommands Rec) (t : Rec) (wl : list Value)
        (numOrCallback cb : Value) (e : Exn) :
  is_classifier (usageType this) = true ->
  wordLabels this = Some wl ->
  model this = Some t ->
  fst (Recognizer.listen (stopped t) (options this)) = Fail e ->
  (typeof (callback_of numOrCallback cb) = "function" ->
   outcome (classify numOrCallback cb this) = Returned RCallbackResult
   /\ calls (trace (classify numOrCallback cb this))
      = [ECall (callback_of numOrCallback cb) [AVal (VStr ("ERROR: " ++ message e))]])
  /\ (typeof (callback_of numOrCallback cb) <> "function" ->
      outcome (classify numOrCallback cb this) = Threw (TypeError "is not a function")
      /\ calls (trace (classify numOrCallback cb this)) = []).
Proof.
  intros Hu Hw Hm He.
  rewrite (classify_run this wl numOrCallback cb Hu Hw).
  rewrite (classifyInternal_failure_run this t _ _ e Hm He).
  assert (Hcheck : calls (listening_check t) = []).
  { unfold listening_check. destruct (Recognizer.isListening t); reflexivity. }
  unfold trace, outcome. cbn [fst snd]. unfold calls in *.
  rewrite filter_app, Hcheck. cbn [filter is_call app].
  split; intros Hf.
  - rewrite Hf. cbn. split; reflexivity.
  - apply String.eqb_neq in Hf. rewrite Hf. cbn. split; reflexivity.
Qed.

(** X16. With a callback and labels in place, each result that reaches the
    listen callback leads to exactly one call of the callback and changes no
    field: [(null, classes)] when the result has scores, and otherwise the
    single argument 'ERROR: Cannot find scores in result: ' followed by the
    result as text. *)
Theorem listen_result_one_callback
        (this : SpeechCommands Rec) (wl : list Value) (topk : Z) (cb : Value)
        (result : ListenResult) :
  wordLabels this = Some wl ->
  typeof cb = "function" ->
  exists args,
    onListenResult topk cb result this
    = (Returned RCallbackResult, this, [ECall cb args])
    /\ match scores result with
       | Some _ => exists classes, args = [AVal VNull; AClasses classes]
       | None =>
           args = [AVal (VStr ("ERROR: Cannot find scores in result: " ++ shown result))]
       end.
Proof.
  intros Hw Hf. unfold onListenResult, invoke. rewrite Hf.
  destruct (scores result) as [values |]; run_body.
  - rewrite Hw. cbn. eexists. split; [reflexivity |]. eexists. reflexivity.
  - eexists. split; reflexivity.
Qed.

(** ** save *)

Lemma save_run (this : SpeechCommands Rec) (t : Rec) (callback : Value) :
  model this = Some t ->
  save saveBlob callback this
  = (Returned RUndefined,
     set_model (Some (snd (Recognizer.save t))) this,
     match fst (Recognizer.save t) with
     | Fail _ => [ESave]
     | Ok data =>
         first_write
           ++ match saveBlob data "model.json" "text/plain" with
              | Fail _ => []
              | Ok _ =>
                  second_write
                    ++ match saveBlob (Recognizer.getMetadata (snd (Recognizer.save t)))
                                      "metadata.json" "text/plain" with
                       | Fail _ => []
                       | Ok _ =>
                           if truthy callback
                           then if (typeof callback =? "function")%string
                                then [ECall callback []] else []
                           else []
                       end
              end
     end).
Proof.
  intros Hm. unfold save, saveHandler, invoke, first_write, second_write. run_body.
  rewrite Hm. cbn.
  destruct (fst (Recognizer.save t)) as [data | e]; cbn; [| reflexivity].
  destruct (saveBlob data "model.json" "text/plain") as [u | e]; cbn; [| reflexivity].
  destruct (saveBlob (Recognizer.getMetadata (snd (Recognizer.save t)))
                     "metadata.json" "text/plain") as [u' | e]; cbn; [| reflexivity].
  destruct (truthy callback); cbn; [| reflexivity].
  destruct (typeof callback =? "function")%string; reflexivity.
Qed.

(** X17. [save] on an instance with a model whose artifacts both get written:
    [model.json] is written first, then [metadata.json], both as
    'text/plain', and only then is the callback, if any, called, without
    arguments. *)
Theorem save_writes_both
        (this : SpeechCommands Rec) (t t' : Rec) (callback : Value) (data : string) :
  model this = Some t ->
  Recognizer.save t = (Ok data, t') ->
  saveBlob data "model.json" "text/plain" = Ok tt ->
  saveBlob (Recognizer.getMetadata t') "metadata.json" "text/plain" = Ok tt ->
  (truthy callback = true -> typeof callback = "function") ->
  outcome (save saveBlob callback this) = Returned RUndefined
  /\ model (final (save saveBlob callback this)) = Some t'
  /\ trace (save saveBlob callback this)
     = first_write ++ second_write
         ++ (if truthy callback then [ECall callback []] else []).
Proof.
  intros Hm Hs H1 H2 Hcb. rewrite (save_run this t callback Hm), Hs.
  cbn [fst snd]. rewrite H1, H2.
  destruct (truthy callback).
  - rewrite (Hcb eq_refl). cbn. repeat split.
  - repeat split.
Qed.

(** X18. [save] on an instance with a model always resolves, whatever fails
    underneath.  Its callback is called only once both artifacts are written;
    when the first write fails, [metadata.json] is not even attempted. *)
Theorem save_partial_failure
        (this : SpeechCommands Rec) (t : Rec) (callback : Value) :
  model this = Some t ->
  outcome (save saveBlob callback this) = Returned RUndefined
  /\ (forall f args,
        In (ECall f args) (trace (save saveBlob callback this)) ->
        f = callback /\ args = []
        /\ exists data u u',
            fst (Recognizer.save t) = Ok data
            /\ saveBlob data "model.json" "text/plain" = Ok u
            /\ saveBlob (Recognizer.getMetadata (snd (Recognizer.save t)))
                        "metadata.json" "text/plain" = Ok u')
  /\ (forall data e,
        fst (Recognizer.save t) = Ok data ->
        saveBlob data "model.json" "text/plain" = Fail e ->
        trace (save saveBlob callback this) = first_write)
  /\ (forall e,
        fst (Recognizer.save t) = Fail e ->
        trace (save saveBlob callback this) = [ESave]).
Proof.
  intros Hm. rewrite (save_run this t callback Hm).
  split; [reflexivity | split; [| split]].
  - intros f args Hin. unfold trace in Hin. cbn [snd] in Hin.
    destruct (fst (Recognizer.save t)) as [data | e].
    2:{ destruct Hin as [H | []]. discriminate H. }
    apply in_app_or in Hin. destruct Hin as [Hin | Hin].
    { unfold first_write in Hin. cbn in Hin.
      repeat (destruct Hin as [Hin | Hin]; [discriminate Hin |]). destruct Hin. }
    destruct (saveBlob data "model.json" "text/plain") as [u | e] eqn:E1;
      [| destruct Hin].
    apply in_app_or in Hin. destruct Hin as [Hin | Hin].
    { unfold second_write in Hin. cbn in Hin.
      repeat (destruct Hin as [Hin | Hin]; [discriminate Hin |]). destruct Hin. }
    destruct (saveBlob (Recognizer.getMetadata (snd (Recognizer.save t)))
                       "metadata.json" "text/plain") as [u' | e] eqn:E2;
      [| destruct Hin].
    destruct (truthy callback); [| destruct Hin].
    destruct (typeof callback =? "function")%string; [| destruct Hin].
    destruct Hin as [H | []]. injection H as <- <-.
    repeat split. exists data, u, u'. repeat split; assumption.
  - intros data e Hs H1. unfold trace. cbn [snd]. rewrite Hs, H1.
    apply app_nil_r.
  - intros e Hs. unfold trace. cbn [snd]. rewrite Hs. reflexivity.
Qed.

(** ** What the methods leave alone *)

Lemma only_model_differs_refl (a : SpeechCommands Rec) : only_model_differs a a.
Proof. repeat split. Qed.

Lemma only_model_differs_set (m : option Rec) (a : SpeechCommands Rec) :
  only_model_differs (set_model m a) a.
Proof. repeat split. Qed.

Lemma addExample_frame (this : SpeechCommands Rec) (l cb : Value) :
  only_model_differs (final (addExample l cb this)) this.
Proof.
  destruct (model this) as [t |] eqn:Hm.
  - destruct (addExample_run this t l cb Hm) as (rest & _ & _ & Hf & _).
    rewrite Hf. destruct (Recognizer.isListening t); repeat split.
  - rewrite (proj2 (addExample_no_model this l cb Hm)).
    apply only_model_differs_refl.
Qed.

Lemma classify_frame (this : SpeechCommands Rec) (numOrCallback cb : Value) :
  only_model_differs (final (classify numOrCallback cb this)) this.
Proof.
  destruct (is_classifier (usageType this)) eqn:Hu.
  2:{ rewrite classify_other_mode by exact Hu. apply only_model_differs_refl. }
  destruct (wordLabels this) as [wl |] eqn:Hw.
  2:{ rewrite classify_no_labels by assumption. apply only_model_differs_refl. }
  rewrite (classify_run this wl numOrCallback cb Hu Hw).
  destruct (model this) as [t |] eqn:Hm.
  - destruct (classifyInternal_run this t (topk_of numOrCallback wl)
                                   (callback_of numOrCallback cb) Hm)
      as (o & rest & E & _).
    rewrite E. unfold final. cbn [fst snd].
    destruct (Recognizer.isListening t); repeat split.
  - rewrite classifyInternal_no_model by exact Hm. apply only_model_differs_refl.
Qed.

Lemma save_frame (this : SpeechCommands Rec) (callback : Value) :
  only_model_differs (final (save saveBlob callback this)) this.
Proof.
  destruct (model this) as [t |] eqn:Hm.
  - rewrite (save_run this t callback Hm). apply only_model_differs_set.
  - rewrite (save_without_model saveBlob this callback Hm).
    apply only_model_differs_refl.
Qed.

(** X19. [addExample], [classify] and [save] change no field of the instance
    other than [model] (the recogniser they act on): the usage mode, the
    options, the labels, the counts, [isPredicting] and the base model are
    the same after the call, however it ends. *)
Theorem only_model_changes (this : SpeechCommands Rec) :
  (forall l cb, only_model_differs (final (addExample l cb this)) this)
  /\ (forall n cb, only_model_differs (final (classify n cb this)) this)
  /\ (forall cb, only_model_differs (final (save saveBlob cb this)) this).
Proof.
  split; [| split]; intros.
  - apply addExample_frame.
  - apply classify_frame.
  - apply save_frame.
Qed.

(** ** Sessions *)

Lemma classification_no_base (this : SpeechCommands Rec) (opts : Value) :
  speechCommandsModel this = None ->
  classification opts this
  = (Threw (TypeError "Cannot read properties of null"),
     set_usageType (Some "classifier") this, []).
Proof.
  intros Hb. unfold classification. run_body. rewrite Hb. reflexivity.
Qed.

Lemma call_model_kept (c : Call) (this : SpeechCommands Rec) (t : Rec) :
  model this = Some t ->
  exists t', model (final (call toFixed saveBlob c this)) = Some t'.
Proof.
  intros Hm. destruct c as [opts | l cb | onProgress | n cb | f callback | callback];
    cbn [call].
  - destruct (speechCommandsModel this) as [b |] eqn:Hb.
    + rewrite (classification_run this b opts Hb).
      destruct (fst (Recognizer.createTransfer b "transfer")) as [t1 | e];
        eexists; cbn; [reflexivity | exact Hm].
    + rewrite (classification_no_base this opts Hb). eexists. exact Hm.
  - destruct (addExample_run this t l cb Hm) as (rest & _ & _ & Hf & _).
    rewrite Hf. eexists. reflexivity.
  - destruct (no_examples (Recognizer.countExamples t)) eqn:Hc.
    + rewrite (train_check_fails toFixed this t onProgress Hm Hc).
      eexists. exact Hm.
    + destruct (is_classifier (usageType this)) eqn:Hu.
      * rewrite (train_classifier_run toFixed this t onProgress Hm Hc Hu).
        eexists. reflexivity.
      * rewrite (train_other_mode_run toFixed this t onProgress Hm Hc Hu).
        eexists. exact Hm.
  - destruct (is_classifier (usageType this)) eqn:Hu.
    2:{ rewrite classify_other_mode by exact Hu. eexists. exact Hm. }
    destruct (wordLabels this) as [wl |] eqn:Hw.
    2:{ rewrite classify_no_labels by assumption. eexists. exact Hm. }
    rewrite (classify_run this wl n cb Hu Hw).
    destruct (classifyInternal_run this t (topk_of n wl) (callback_of n cb) Hm)
      as (o & rest & E & _).
    rewrite E. eexists. reflexivity.
  - destruct f as [| | | | path | |]; try (eexists; exact Hm).
    rewrite load_path_run.
    destruct (fst (Recognizer.ensureModelLoaded (loaded_from path)));
      eexists; reflexivity.
  - rewrite (save_run this t callback Hm). eexists. reflexivity.
Qed.

Lemma session_model_kept (cs : list Call) :
  forall (this : SpeechCommands Rec) (t : Rec),
    model this = Some t ->
    exists t', model (session toFixed saveBlob cs this) = Some t'.
Proof.
  induction cs as [| c cs IH]; intros this t Hm; cbn [session].
  - exists t. exact Hm.
  - destruct (call_model_kept c this t Hm) as (t1 & H1).
    exact (IH _ t1 H1).
Qed.

(** X20. Once an instance has a model it has one for good: no sequence of
    calls, failing or not, sets [model] back to null, so [save] never again
    fails for want of a model. *)
Theorem model_never_reset
        (cs : list Call) (this : SpeechCommands Rec) (t : Rec) (callback : Value) :
  model this = Some t ->
  (exists t', model (session toFixed saveBlob cs this) = Some t')
  /\ outcome (save saveBlob callback (session toFixed saveBlob cs this))
     = Returned RUndefined.
Proof.
  intros Hm. destruct (session_model_kept cs this t Hm) as (t' & H).
  split; [exists t'; exact H |].
  rewrite (save_run _ t' callback H). reflexivity.
Qed.

Lemma some_not_none {A} (o : option A) (a : A) : o = Some a -> o <> None.
Proof. intros -> H. discriminate H. Qed.

Lemma call_well_formed (c : Call) (this : SpeechCommands Rec) :
  well_formed this -> well_formed (final (call toFixed saveBlob c this)).
Proof.
  intros (Hp & Hb & Hu & Hw & Hc).
  assert (Hkeep : model this <> None ->
                  model (final (call toFixed saveBlob c this)) <> None).
  { intros Hm. destruct (model this) as [t |] eqn:E; [| contradiction].
    destruct (call_model_kept c this t E) as (t' & H).
    exact (some_not_none _ _ H). }
  destruct c as [opts | l cb | onProgress | n cb | f callback | callback];
    cbn [call] in *.
  - destruct (speechCommandsModel this) as [b |] eqn:Eb; [| contradiction].
    rewrite (classification_run this b opts Eb) in *.
    destruct (fst (Recognizer.createTransfer b "transfer")) as [t1 | e];
      unfold well_formed; cbn in *; repeat split; auto; discriminate.
  - destruct (addExample_frame this l cb) as (F1 & F2 & F3 & F4 & F5 & F6).
    unfold well_formed. rewrite F1, F2, F3, F5, F6. repeat split; auto.
  - destruct (model this) as [t |] eqn:Hm.
    + destruct (no_examples (Recognizer.countExamples t)) eqn:Hx.
      * rewrite (train_check_fails toFixed this t onProgress Hm Hx).
        unfold well_formed. cbn. rewrite Hm. repeat split; auto; discriminate.
      * destruct (is_classifier (usageType this)) eqn:Hy.
        -- rewrite (train_classifier_run toFixed this t onProgress Hm Hx Hy).
           unfold well_formed. cbn. repeat split; auto; discriminate.
        -- rewrite (train_other_mode_run toFixed this t onProgress Hm Hx Hy).
           unfold well_formed. cbn. rewrite Hm. repeat split; auto; discriminate.
    + rewrite (train_no_model toFixed this onProgress Hm).
      unfold well_formed, final. cbn [fst snd]. rewrite Hm. repeat split; auto.
  - destruct (classify_frame this n cb) as (F1 & F2 & F3 & F4 & F5 & F6).
    unfold well_formed. rewrite F1, F2, F3, F5, F6. repeat split; auto.
  - destruct f as [| | | | path | |];
      try (unfold well_formed, final; cbn; repeat split; assumption).
    rewrite load_path_run.
    destruct (fst (Recognizer.ensureModelLoaded (loaded_from path)));
      unfold well_formed; cbn; repeat split; auto; discriminate.
  - destruct (save_frame this callback) as (F1 & F2 & F3 & F4 & F5 & F6).
    unfold well_formed. rewrite F1, F2, F3, F5, F6. repeat split; auto.
Qed.

Lemma constructor_well_formed (ready : Value) :
  well_formed (final (constructor (Rec := Rec) ready)).
Proof.
  destruct (constructor_fields (Rec := Rec) ready) as (Hm & Hp & Hu & Hw & _).
  assert (Hc : examplesCount (final (constructor (Rec := Rec) ready)) = None).
  { unfold constructor, callCallback, loadModel. run_body.
    destruct (fst (Recognizer.ensureModelLoaded (Recognizer.create None None)));
      cbn; destruct (truthy ready); reflexivity. }
  unfold well_formed. rewrite Hp, Hu, Hw, Hc, (constructor_base ready).
  split; [reflexivity | split; [discriminate | split; [left; reflexivity |]]].
  split; intros H; exfalso; apply H; reflexivity.
Qed.

(** X21. Whatever is called on an instance after its construction, and
    however the calls end: the base model is set, the usage mode is unset or
    'classifier', [isPredicting] is [false], and labels or example counts are
    only present on an instance that has a model. *)
Theorem session_well_formed (ready : Value) (cs : list Call) :
  well_formed (session toFixed saveBlob cs (final (constructor (Rec := Rec) ready))).
Proof.
  generalize (constructor_well_formed ready).
  generalize (final (constructor (Rec := Rec) ready)).
  induction cs as [| c cs IH]; intros this Hwf; cbn [session].
  - exact Hwf.
  - apply IH. apply call_well_formed. exact Hwf.
Qed.

End Lifecycle.

(** * The further properties on concrete instances *)

Lemma load_replaces_model_witness :
  Recognizer.ensureModelLoaded (loaded_from (R := RefRecognizer.ops) "words")
  = (Ok tt, RefRecognizer.mkState false [] true)
  /\ model (final (load (VStr "words") Example.cb Example.fresh))
     = Some (RefRecognizer.mkState false [] true)
  /\ trace (load (VStr "words") Example.cb Example.fresh)
     = [ECreate (Some "words/model.json") (Some "words/metadata.json");
        EEnsureModelLoaded; EAwait; EWordLabels; ECall Example.cb []].
Proof.
  split; [reflexivity |].
  destruct (load_replaces_model (R := RefRecognizer.ops) Example.fresh "words"
              Example.cb (RefRecognizer.mkState false [] true)
              eq_refl (fun _ => eq_refl))
    as (_ & Hm & _ & _ & _ & Ht).
  split; [exact Hm | exact Ht].
Defined.

Lemma load_failure_replaces_model_witness :
  Recognizer.ensureModelLoaded (loaded_from (R := BrokenRecognizer.ops) "words")
  = (Fail BrokenRecognizer.unreachable, BrokenRecognizer.Offline)
  /\ outcome (load (VStr "words") Example.cb BrokenRecognizer.stuck)
     = Threw BrokenRecognizer.unreachable
  /\ calls (trace (load (VStr "words") Example.cb BrokenRecognizer.stuck)) = [].
Proof.
  split; [reflexivity |].
  destruct (load_failure_replaces_model (R := BrokenRecognizer.ops)
              BrokenRecognizer.stuck "words" Example.cb
              BrokenRecognizer.unreachable BrokenRecognizer.Offline eq_refl)
    as (Ho & _ & _ & Hc).
  split; [exact Ho | exact Hc].
Defined.

Lemma load_keeps_mode_witness :
  is_classifier (usageType Example.fresh) = false
  /\ outcome (classify (VNum 2) Example.cb
                       (final (load (VStr "words") VUndefined Example.fresh)))
     = Threw (Error "SpeechCommands Feature Extraction has not been set to be a classifier.").
Proof.
  split; [reflexivity |].
  exact (proj1 (load_keeps_mode (R := RefRecognizer.ops) Example.fresh
                                (VStr "words") VUndefined (VNum 2) Example.cb eq_refl)).
Defined.

Lemma train_outside_classifier_mode_witness :
  model (set_usageType None Example.collected)
  = Some (RefRecognizer.mkState false ["yes"; "no"; "yes"] true)
  /\ is_classifier (usageType (set_usageType None Example.collected)) = false
  /\ trace (train RefRecognizer.r_toFixed Example.onProgress
                  (set_usageType None Example.collected))
     = [ECountExamples].
Proof.
  split; [reflexivity | split; [reflexivity |]].
  exact (proj1 (proj2 (train_outside_classifier_mode
                         (R := RefRecognizer.ops) RefRecognizer.r_toFixed
                         (set_usageType None Example.collected)
                         (RefRecognizer.mkState false ["yes"; "no"; "yes"] true)
                         Example.onProgress eq_refl eq_refl eq_refl))).
Defined.

Lemma train_failure_keeps_labels_witness :
  model BrokenRecognizer.stuck = Some BrokenRecognizer.Offline
  /\ snd (fst (Recognizer.train BrokenRecognizer.Offline 25))
     = Fail BrokenRecognizer.unreachable
  /\ outcome (train RefRecognizer.r_toFixed Example.onProgress BrokenRecognizer.stuck)
     = Threw BrokenRecognizer.unreachable
  /\ wordLabels (final (train RefRecognizer.r_toFixed Example.onProgress
                              BrokenRecognizer.stuck))
     = Some [VStr "yes"].
Proof.
  split; [reflexivity | split; [reflexivity |]].
  destruct (train_failure_keeps_labels
              (R := BrokenRecognizer.ops) RefRecognizer.r_toFixed
              BrokenRecognizer.stuck BrokenRecognizer.Offline Example.onProgress
              BrokenRecognizer.unreachable eq_refl eq_refl eq_refl eq_refl eq_refl)
    as (Ho & Hw & _).
  split; [exact Ho | exact Hw].
Defined.

Lemma classification_not_atomic_witness :
  speechCommandsModel BrokenRecognizer.stuck = Some BrokenRecognizer.Offline
  /\ outcome (classification VUndefined BrokenRecognizer.stuck)
     = Threw BrokenRecognizer.unreachable
  /\ usageType (final (classification VUndefined BrokenRecognizer.stuck))
     = Some "classifier".
Proof.
  split; [reflexivity |].
  destruct (classification_not_atomic
              (R := BrokenRecognizer.ops) BrokenRecognizer.stuck
              BrokenRecognizer.Offline BrokenRecognizer.Offline VUndefined
              BrokenRecognizer.unreachable eq_refl eq_refl)
    as (Ho & Hu & _).
  split; [exact Ho | exact Hu].
Defined.

Lemma classification_keeps_labels_witness :
  wordLabels Example.trained = Some [VStr "no"; VStr "yes"]
  /\ wordLabels (final (classification VUndefined Example.trained))
     = Some [VStr "no"; VStr "yes"]
  /\ (exists rest,
        trace (classify VUndefined Example.cb
                        (final (classification VUndefined Example.trained)))
        = [EIsListening false; EListen 2 Example.cb []] ++ rest)
  /\ outcome (classify VUndefined Example.cb
                       (final (classification VUndefined Example.trained)))
     = Returned RUndefined.
Proof.
  split; [reflexivity |].
  destruct (classification_keeps_labels
              (R := RefRecognizer.ops) Example.trained
              (RefRecognizer.mkState false [] true)
              (RefRecognizer.mkState false [] true)
              (RefRecognizer.mkState false [] true)
              [VStr "no"; VStr "yes"] VUndefined VUndefined Example.cb
              eq_refl eq_refl eq_refl)
    as (Hw & (rest & Ht) & Hok).
  split; [exact Hw | split; [exists rest; exact Ht | exact (Hok tt eq_refl)]].
Defined.

Lemma options_accumulate_witness :
  speechCommandsModel Example.fresh = Some (RefRecognizer.mkState false [] true)
  /\ lookup "overlapFactor"
            (options (final (classification
                               (VObj [("includeSpectrogram", SBool true)])
                               (final (classification
                                         (VObj [("overlapFactor", SNum 1)])
                                         Example.fresh)))))
     = Some (SNum 1).
Proof.
  split; [reflexivity |].
  exact (options_accumulate
           (R := RefRecognizer.ops) Example.fresh
           (RefRecognizer.mkState false [] true) (RefRecognizer.mkState false [] true)
           (RefRecognizer.mkState false [] true) (RefRecognizer.mkState false [] true)
           (RefRecognizer.mkState false [] true)
           [("overlapFactor", SNum 1)] [("includeSpectrogram", SBool true)]
           "overlapFactor" eq_refl eq_refl eq_refl).
Defined.

Lemma addExample_failure_witness :
  model Example.configured = Some (RefRecognizer.mkState false [] true)
  /\ fst (Recognizer.collectExample
            (stopped (RefRecognizer.mkState false [] true)) (label_of (VNum 3)))
     = Fail RefRecognizer.bad_word
  /\ outcome (addExample (VNum 3) Example.cb Example.configured)
     = Threw RefRecognizer.bad_word.
Proof.
  split; [reflexivity | split; [reflexivity |]].
  exact (proj1 (addExample_failure
                  (R := RefRecognizer.ops) Example.configured
                  (RefRecognizer.mkState false [] true) (VNum 3) Example.cb
                  RefRecognizer.bad_word eq_refl eq_refl)).
Defined.

Lemma addExample_label_witness :
  In (ECollectExample VUndefined)
     (trace (addExample Example.cb VUndefined Example.configured))
  /\ ((VUndefined = Example.cb
       /\ (typeof Example.cb = "string" \/ typeof Example.cb = "number"))
      \/ (VUndefined = VUndefined
          /\ typeof Example.cb <> "string" /\ typeof Example.cb <> "number")).
Proof.
  assert (H : In (ECollectExample VUndefined)
                 (trace (addExample Example.cb VUndefined Example.configured))).
  { right. left. reflexivity. }
  split; [exact H |].
  exact (addExample_label (R := RefRecognizer.ops) Example.configured Example.cb
                          VUndefined VUndefined H).
Defined.

Lemma classify_without_callback_witness :
  is_classifier (usageType Example.trained) = true
  /\ typeof VUndefined <> "function"
  /\ exists rest,
      trace (classify (VNum 2) VUndefined Example.trained)
      = [EIsListening false; EListen 2 VUndefined []] ++ rest.
Proof.
  split; [reflexivity | split; [discriminate |]].
  exact (proj1 (classify_without_callback
                  (R := RefRecognizer.ops) Example.trained
                  (RefRecognizer.mkState false ["yes"; "no"; "yes"] true)
                  [VStr "no"; VStr "yes"] (VNum 2) VUndefined
                  eq_refl eq_refl eq_refl
                  ltac:(discriminate) ltac:(discriminate))).
Defined.

Lemma classify_listen_failure_witness :
  fst (Recognizer.listen (stopped BrokenRecognizer.Offline)
                         (options BrokenRecognizer.stuck))
  = Fail BrokenRecognizer.unreachable
  /\ outcome (classify Example.cb VUndefined BrokenRecognizer.stuck)
     = Returned RCallbackResult
  /\ calls (trace (classify Example.cb VUndefined BrokenRecognizer.stuck))
     = [ECall Example.cb [AVal (VStr "ERROR: Failed to fetch")]].
Proof.
  split; [reflexivity |].
  exact (proj1 (classify_listen_failure
                  (R := BrokenRecognizer.ops) BrokenRecognizer.stuck
                  BrokenRecognizer.Offline [VStr "yes"] Example.cb VUndefined
                  BrokenRecognizer.unreachable eq_refl eq_refl eq_refl eq_refl)
               eq_refl).
Defined.

Lemma listen_result_one_callback_witness :
  wordLabels Example.streaming = Some [VStr "no"; VStr "yes"]
  /\ exists args,
      onListenResult 2 Example.cb (mkResult None "[object Object]") Example.streaming
      = (Returned RCallbackResult, Example.streaming, [ECall Example.cb args])
      /\ args = [AVal (VStr "ERROR: Cannot find scores in result: [object Object]")].
Proof.
  split; [reflexivity |].
  exact (listen_result_one_callback
           (Rec := RefRecognizer.state) Example.streaming [VStr "no"; VStr "yes"] 2
           Example.cb (mkResult None "[object Object]") eq_refl eq_refl).
Defined.

Lemma save_writes_both_witness :
  model Example.trained = Some (RefRecognizer.mkState false ["yes"; "no"; "yes"] true)
  /\ trace (save RefRecognizer.r_saveBlob Example.cb Example.trained)
     = first_write ++ second_write ++ [ECall Example.cb []].
Proof.
  split; [reflexivity |].
  exact (proj2 (proj2 (save_writes_both
                         (R := RefRecognizer.ops) RefRecognizer.r_saveBlob
                         Example.trained
                         (RefRecognizer.mkState false ["yes"; "no"; "yes"] true)
                         (RefRecognizer.mkState false ["yes"; "no"; "yes"] true)
                         Example.cb "{}" eq_refl eq_refl eq_refl eq_refl
                         (fun _ => eq_refl)))).
Defined.

Lemma save_partial_failure_witness :
  model Example.trained = Some (RefRecognizer.mkState false ["yes"; "no"; "yes"] true)
  /\ outcome (save BrokenRecognizer.full_saveBlob Example.cb Example.trained)
     = Returned RUndefined
  /\ calls (trace (save BrokenRecognizer.full_saveBlob Example.cb Example.trained)) = [].
Proof.
  split; [reflexivity |].
  split; [| reflexivity].
  exact (proj1 (save_partial_failure
                  (R := RefRecognizer.ops) BrokenRecognizer.full_saveBlob
                  Example.trained
                  (RefRecognizer.mkState false ["yes"; "no"; "yes"] true)
                  Example.cb eq_refl)).
Defined.

Lemma model_never_reset_witness :
  model Example.configured = Some (RefRecognizer.mkState false [] true)
  /\ outcome (save RefRecognizer.r_saveBlob Example.cb
                   (session RefRecognizer.r_toFixed RefRecognizer.r_saveBlob
                            [Train Example.onProgress; Load VNull Example.cb;
                             AddExample (VNum 3) Example.cb]
                            Example.configured))
     = Returned RUndefined.
Proof.
  split; [reflexivity |].
  exact (proj2 (model_never_reset
                  (R := RefRecognizer.ops) RefRecognizer.r_toFixed
                  RefRecognizer.r_saveBlob
                  [Train Example.onProgress; Load VNull Example.cb;
                   AddExample (VNum 3) Example.cb]
                  Example.configured (RefRecognizer.mkState false [] true)
                  Example.cb eq_refl)).
Defined.
